(** * Lipizzaner GAN: the trainer's logging, image dumping and checkpointing

    A shallow embedding of [src/training/nn_trainer.py]
    (class [NeuralNetworkTrainer]): [log_results], [save_images] and
    [save_checkpoint], with the effects the Python code has (files written
    in the output directory, log lines, the training flag of the generator
    networks, exceptions) written as a state-and-exception monad.

    What lies outside the module is kept symbolic and total: a tensor is
    the expression that made it, a file is what was handed to the call that
    wrote it ([yaml.dump], [torch.save], the two [save_images] of the
    dataset and of the dataloader), and the only exception is the
    IndexError of indexing a list, which is the module's own.  Attributes
    have the types the trainer gives them: counts and coordinates are
    integers, [is_local] a boolean, fitness and learning rate floats,
    [grid_position] a pair. *)

From Stdlib Require Import ZArith String Ascii List Bool Lia.
From stdpp Require Import base gmap strings pretty list.

Local Open Scope Z_scope.
Local Open Scope string_scope.
Local Open Scope list_scope.

(* ===================================================================== *)
(** ** Python values *)
(* ===================================================================== *)

(** A Python float is carried by its [repr], the shortest decimal text that
    reads back as the same float ("0.0002", "-inf", "nan").  The trainer never
    computes with a float: it copies it, and prints it with [str.format],
    which for a float prints that text. *)
Record pyfloat := Float { float_repr : string }.

(** Scalars: what the attributes of an individual and the keyword arguments
    of [log_results] hold. *)
Inductive atom :=
| ANone
| ABool (b : bool)
| AInt (n : Z)
| AFloat (f : pyfloat)
| AStr (s : string).

#[local] Set Warnings "-register-all".

(** Values a checkpoint is made of.  A [dict] keeps its keys in insertion
    order, as Python's does. *)
Inductive pyval :=
| PAtom (a : atom)
| PList (l : list pyval)
| PDict (d : list (string * pyval)).

Abbreviation dict := (list (string * pyval)).

(** [d[k] = v] *)
Fixpoint dict_set (k : string) (v : pyval) (d : dict) : dict :=
  match d with
  | [] => [(k, v)]
  | (k', v') :: rest =>
      if String.eqb k' k then (k, v) :: rest else (k', v') :: dict_set k v rest
  end.

(** [d.get(k)] *)
Fixpoint dict_get (k : string) (d : dict) : option pyval :=
  match d with
  | [] => None
  | (k', v') :: rest => if String.eqb k' k then Some v' else dict_get k rest
  end.

(** ['{}'.format(v)], which is [str(v)], on a scalar. *)
Definition py_str (v : atom) : string :=
  match v with
  | ANone => "None"
  | ABool true => "True"
  | ABool false => "False"
  | AInt n => pretty n
  | AFloat f => float_repr f
  | AStr s => s
  end.

(** [', '.join(parts)] *)
Fixpoint join (sep : string) (parts : list string) : string :=
  match parts with
  | [] => ""
  | [p] => p
  | p :: rest => p +:+ sep +:+ join sep rest
  end.

(** [os.path.join(a, b)] on a POSIX system. *)
Definition starts_with_sep (s : string) : bool :=
  match s with
  | String c _ => Ascii.eqb c "/"
  | EmptyString => false
  end.

Fixpoint ends_with_sep (s : string) : bool :=
  match s with
  | EmptyString => false
  | String c EmptyString => Ascii.eqb c "/"
  | String _ rest => ends_with_sep rest
  end.

Definition path_join (a b : string) : string :=
  if starts_with_sep b then b
  else if String.eqb a "" || ends_with_sep a then a +:+ b
  else a +:+ "/" +:+ b.

(* ===================================================================== *)
(** ** Networks, individuals, tensors *)
(* ===================================================================== *)

(** [net.state_dict()]: the weights, by parameter name. *)
Abbreviation state_dict := (list (string * list pyfloat)).

(** A [torch.nn.Module]: its weights and its [training] flag, which
    [eval()] clears and [train()] sets. *)
Record Net := { weights : state_dict; training : bool }.

(** Networks are objects: two individuals may hold the same one.  An
    individual refers to its network by its address in the store. *)
Definition loc := nat.

Record Genome := { net : loc }.

Record Individual := {
  indiv_id : atom;          (* individual.id *)
  is_local : bool;
  fitness : pyfloat;
  source : atom;
  learning_rate : pyfloat;
  iteration : atom;
  genome : Genome
}.

(** [input_var]: a batch of real samples handed in by the training loop.
    Dimension 0 counts the samples, dimension 1 is the first dimension of a
    sample ([input_var.size(1)]). *)
Record InputBatch := { size0 : Z; size1 : Z; batch_name : string }.

(** Tensors are kept symbolic: where they come from and their leading
    dimension.  [batch] below reads off the first dimension. *)
Inductive tensor :=
| Input (input_var : InputBatch)
| Noise (batch_size data_size : Z)          (* noise(batch_size, data_size) *)
| UnsqueezeRepeat (z : tensor) (sequence_length : Z)
                                            (* z.unsqueeze(1).repeat(1, n, 1) *)
| Forward (w : state_dict) (train_mode : bool) (z : tensor).
                                            (* net(z) *)

(** [t.size(0)]: the number of samples in the batch. *)
Fixpoint batch (t : tensor) : Z :=
  match t with
  | Input input_var => size0 input_var
  | Noise n _ => n
  | UnsqueezeRepeat z _ => batch z
  | Forward _ _ z => batch z
  end.

(** What [save_images] hands to the image writer: one tensor, or (with
    [print_multiple_generators]) a list of tensors. *)
Inductive generated :=
| One (t : tensor)
| Many (ts : list tensor).

Definition image_count (g : generated) : Z :=
  match g with
  | One t => batch t
  | Many ts => fold_right Z.add 0 (map batch ts)
  end.

(* ===================================================================== *)
(** ** The world the trainer acts on *)
(* ===================================================================== *)

Inductive file :=
| YamlFile (doc : pyval)
    (* yaml.dump(doc, file) *)
| PickleFile (sd : state_dict)
    (* torch.save(sd, path) *)
| DatasetImages (images : generated) (discr : option Genome)
    (* loader.dataset.save_images(images, path, discr) *)
| LoaderImages (images : tensor) (shape : option (list Z)).
    (* self.dataloader.save_images(images, shape, path) *)

Record World := {
  files : gmap string file;   (* the file system, by path *)
  nets : loc -> Net;          (* the networks *)
  log : list string;          (* lines given to the logger, oldest first *)
  clock : string              (* datetime.now().strftime('%Y-%m-%d %H:%M:%S') *)
}.

Inductive exn := IndexError.

Inductive outcome (A : Type) :=
| Return (a : A)
| Raise (e : exn).
Arguments Return {A} a.
Arguments Raise {A} e.

(** A computation runs in a world and leaves a world, also when it raises:
    what it wrote before the exception stays written. *)
Definition M (A : Type) : Type := World -> outcome A * World.

Definition ret {A} (a : A) : M A := fun w => (Return a, w).

Definition bind {A B} (c : M A) (k : A -> M B) : M B :=
  fun w =>
    match c w with
    | (Return a, w') => k a w'
    | (Raise e, w') => (Raise e, w')
    end.

Definition raise {A} (e : exn) : M A := fun w => (Raise e, w).

Notation "'let*' x ':=' c 'in' k" := (bind c (fun x => k))
  (at level 10, x name, c at level 100, k at level 200).
Notation "c ';;;' k" := (bind c (fun _ => k))
  (at level 100, k at level 200, right associativity).

(** [xs[i]] for an index [i >= 0] *)
Definition index {A} (xs : list A) (i : nat) : M A :=
  match xs !! i with
  | Some x => ret x
  | None => raise IndexError
  end.

Definition set_files (fs : gmap string file) (w : World) : World :=
  {| files := fs; nets := nets w; log := log w; clock := clock w |}.

Definition set_nets (ns : loc -> Net) (w : World) : World :=
  {| files := files w; nets := ns; log := log w; clock := clock w |}.

(** [open(path, 'w')] and one write: the file is created or replaced. *)
Definition write_file (path : string) (f : file) : M unit :=
  fun w => (Return tt, set_files (<[path := f]> (files w)) w).

Definition logger_info (line : string) : M unit :=
  fun w => (Return tt,
            {| files := files w; nets := nets w;
               log := log w ++ [line]; clock := clock w |}).

Definition now : M string := fun w => (Return (clock w), w).

Definition get_net (l : loc) : M Net := fun w => (Return (nets w l), w).

Definition with_training (flag : bool) (n : Net) : Net :=
  {| weights := weights n; training := flag |}.

(** The store once the network at [l] has its flag set to [flag]. *)
Definition switch (l : loc) (flag : bool) (ns : loc -> Net) : loc -> Net :=
  fun l' => if Nat.eqb l' l then with_training flag (ns l') else ns l'.

Definition set_training (l : loc) (flag : bool) : M unit :=
  fun w => (Return tt, set_nets (switch l flag (nets w)) w).

(** [net.eval()] and [net.train()] *)
Definition net_eval (l : loc) : M unit := set_training l false.
Definition net_train (l : loc) : M unit := set_training l true.

(** [net(z)]: the forward pass reads the weights and the mode. *)
Definition net_call (l : loc) (z : tensor) : M tensor :=
  let* n := get_net l in ret (Forward (weights n) (training n) z).

(** [torch.save(net.state_dict(), path)] *)
Definition torch_save_state_dict (l : loc) (path : string) : M unit :=
  let* n := get_net l in write_file path (PickleFile (weights n)).

(* ===================================================================== *)
(** ** The trainer *)
(* ===================================================================== *)

Record Settings := {
  sample_count : option Z;                  (* ['dataloader'].get('sample_count', False) *)
  dataset_name : string;                    (* ['dataloader']['dataset_name'] *)
  image_format : string;                     (* ['general']['logging']['image_format'] *)
  print_multiple_generators : option bool;  (* ['general']['logging'].get(..., False) *)
  print_discriminator : option bool         (* ['general']['logging'].get(..., False) *)
}.

Record ConfigurationContainer := { settings : Settings; output_dir : string }.

Record Population := { individuals : list Individual }.

Record NetworkFactory := { gen_input_size : Z }.

(** [loader.dataset]: whether it has its own [save_images], and the shape of
    its [train_data] when it has that attribute. *)
Record Dataset := { has_save_images : bool; train_data_shape : option (list Z) }.
Record Loader := { dataset : Dataset }.

Record NeuralNetworkTrainer := {
  cc : ConfigurationContainer;
  network_factory : NetworkFactory;
  population_gen : Population;
  population_dis : Population
}.

Definition GENERATOR_PREFIX : string := "generator-".
Definition DISCRIMINATOR_PREFIX : string := "discriminator-".

(* --------------------------------------------------------------------- *)
(** *** save_checkpoint *)

(** The [indiv] dict of one individual. *)
Definition indiv_dict (individual : Individual) : dict :=
  let indiv := [] in
  let indiv := dict_set "id" (PAtom (indiv_id individual)) indiv in
  let indiv := dict_set "is_local" (PAtom (ABool (is_local individual))) indiv in
  let indiv := dict_set "fitness" (PAtom (AFloat (fitness individual))) indiv in
  let indiv := dict_set "source" (PAtom (source individual)) indiv in
  indiv.

Definition weights_filename (prefix : string) (cell_number local_id : Z) : string :=
  prefix +:+ pretty cell_number +:+ "-" +:+ pretty local_id +:+ ".pkl".

(** The [for individual in individuals] loop: [entries] is
    [individuals_info['individuals']] so far. *)
Fixpoint individuals_loop (self : NeuralNetworkTrainer) (prefix : string)
    (cell_number : Z) (individuals : list Individual)
    (local_id : Z) (entries : list pyval) : M (list pyval) :=
  match individuals with
  | [] => ret entries
  | individual :: rest =>
      let indiv := indiv_dict individual in
      let entries := entries ++ [PDict indiv] in
      if is_local individual then
        let filename := weights_filename prefix cell_number local_id in
        torch_save_state_dict (net (genome individual))
                              (path_join (output_dir (cc self)) filename) ;;;
        individuals_loop self prefix cell_number rest (local_id + 1) entries
      else
        individuals_loop self prefix cell_number rest local_id entries
  end.

Definition get_individuals_information (self : NeuralNetworkTrainer)
    (individuals : list Individual) (prefix : string) (cell_number : Z) : M dict :=
  let individuals_info := [] in
  match individuals with
  | [] => ret individuals_info
  | individual0 :: _ =>
      let individuals_info :=
        dict_set "learning_rate"
                 (PAtom (AStr (py_str (AFloat (learning_rate individual0)))))
                 individuals_info in
      let* entries := individuals_loop self prefix cell_number individuals 0 [] in
      ret (dict_set "individuals" (PList entries) individuals_info)
  end.

Definition checkpoint_filename (cell_number : Z) : string :=
  "checkpoint-" +:+ pretty cell_number +:+ ".yml".

Definition save_checkpoint (self : NeuralNetworkTrainer)
    (generators discriminators : list Individual)
    (cell_number : Z) (grid_position : Z * Z) (grid_size : Z) : M unit :=
  let checkpoint := [] in
  let* time := now in
  let checkpoint := dict_set "time" (PAtom (AStr time)) checkpoint in
  let* gens := get_individuals_information self generators GENERATOR_PREFIX cell_number in
  let checkpoint := dict_set "generators" (PDict gens) checkpoint in
  let* discs := get_individuals_information self discriminators DISCRIMINATOR_PREFIX cell_number in
  let checkpoint := dict_set "discriminators" (PDict discs) checkpoint in
  let checkpoint := dict_set "id" (PAtom (AInt cell_number)) checkpoint in
  let* generator0 := index generators 0 in
  let checkpoint := dict_set "iteration" (PAtom (iteration generator0)) checkpoint in
  let position := [] in
  let position := dict_set "x" (PAtom (AInt (fst grid_position))) position in
  let position := dict_set "y" (PAtom (AInt (snd grid_position))) position in
  let checkpoint := dict_set "position" (PDict position) checkpoint in
  let checkpoint := dict_set "grid_size" (PAtom (AInt grid_size)) checkpoint in
  let path_checkpoint := path_join (output_dir (cc self)) (checkpoint_filename cell_number) in
  write_file path_checkpoint (YamlFile (PDict checkpoint)).

(* --------------------------------------------------------------------- *)
(** *** save_images *)

(** [loader.dataset.save_images(images, path, discr)] *)
Definition dataset_save_images (images : generated) (path : string)
    (discr : option Genome) : M unit :=
  write_file path (DatasetImages images discr).

(** [self.dataloader.save_images(images, shape, path)] *)
Definition dataloader_save_images (images : tensor) (shape : option (list Z))
    (path : string) : M unit :=
  write_file path (LoaderImages images shape).

(** Truth value of [path_real], a string or [None]. *)
Definition truthy_path (path : option string) : bool :=
  match path with
  | Some p => negb (String.eqb p "")
  | None => false
  end.

(** [settings['general']['logging'].get(key, False)] on a boolean setting. *)
Definition logging_get (o : option bool) : bool :=
  match o with
  | Some b => b
  | None => false
  end.

(** [noise(batch_size, data_size)] *)
Definition noise (batch_size data_size : Z) : tensor := Noise batch_size data_size.

(** The loop [for i in range(min(len(individuals), 5))] of the
    [print_multiple_generators] branch, over the indices still to visit. *)
Fixpoint generate_each (self : NeuralNetworkTrainer) (z : tensor)
    (indices : list nat) (generated_output : list tensor) : M (list tensor) :=
  match indices with
  | [] => ret generated_output
  | i :: rest =>
      let* individual := index (individuals (population_gen self)) i in
      let gen := net (genome individual) in
      net_eval gen ;;;
      let* out := net_call gen z in
      let generated_output := generated_output ++ [out] in
      net_train gen ;;;
      generate_each self z rest generated_output
  end.

Definition save_images (self : NeuralNetworkTrainer) (batch_size : Z)
    (input_var : InputBatch) (iteration : Z) (loader : Loader)
    (path_fake : string) (path_real : option string) : M unit :=
  if has_save_images (dataset loader) then
    (if (iteration =? 0)%Z && truthy_path path_real
     then dataset_save_images (One (Input input_var))
                              (match path_real with Some p => p | None => "" end) None
     else ret tt) ;;;
    let z := noise batch_size (gen_input_size (network_factory self)) in
    let z :=
      if String.eqb (dataset_name (settings (cc self))) "network_traffic"
      then let sequence_length := size1 input_var in
           UnsqueezeRepeat z sequence_length
      else z in
    let* generated_output :=
      if logging_get (print_multiple_generators (settings (cc self))) then
        let n := Nat.min (length (individuals (population_gen self))) 5 in
        let* outs := generate_each self z (seq 0 n) [] in
        ret (Many outs)
      else
        let* individual := index (individuals (population_gen self)) 0 in
        let gen := net (genome individual) in
        net_eval gen ;;;
        let* out := net_call gen z in
        net_train gen ;;;
        ret (One out) in
    let print_discriminator := logging_get (print_discriminator (settings (cc self))) in
    let* discr :=
      if print_discriminator
      then let* individual := index (individuals (population_dis self)) 0 in
           ret (Some (genome individual))
      else ret None in
    dataset_save_images generated_output path_fake discr
  else
    let shape := train_data_shape (dataset loader) in
    (if (iteration =? 0)%Z && truthy_path path_real
     then dataloader_save_images (Input input_var) shape
                                 (match path_real with Some p => p | None => "" end)
     else ret tt) ;;;
    let z := noise batch_size (gen_input_size (network_factory self)) in
    let* individual := index (individuals (population_gen self)) 0 in
    let gen := net (genome individual) in
    net_eval gen ;;;
    let* generated_output := net_call gen z in
    dataloader_save_images generated_output shape path_fake ;;;
    net_train gen.

(* --------------------------------------------------------------------- *)
(** *** log_results *)

(** The batch size [log_results] hands to [save_images]:
    [sample_count if sample_count else min(batch_size, 128)], where
    [sample_count] is [False] when the setting is absent. *)
Definition images_batch_size (sample_count : option Z) (batch_size : Z) : Z :=
  match sample_count with
  | Some n => if (n =? 0)%Z then Z.min batch_size 128 else n
  | None => Z.min batch_size 128
  end.

Definition log_line (iteration : Z) (fitness_gen fitness_dis : pyfloat)
    (append : string) : string :=
  "Iteration=" +:+ py_str (AInt (iteration + 1)) +:+
  ", f(Generator(x))=" +:+ py_str (AFloat fitness_gen) +:+
  ", f(Discriminator(x))=" +:+ py_str (AFloat fitness_dis) +:+ append.

Definition log_results (self : NeuralNetworkTrainer) (batch_size iteration : Z)
    (input_var : InputBatch) (loader : Loader)
    (kwargs : list (string * atom)) : M (string * string) :=
  let append :=
    join ", " (map (fun kv => fst kv +:+ "=" +:+ py_str (snd kv)) kwargs) in
  let append := if String.eqb append "" then append else ", " +:+ append in
  let* generator0 := index (individuals (population_gen self)) 0 in
  let* discriminator0 := index (individuals (population_dis self)) 0 in
  logger_info (log_line iteration (fitness generator0) (fitness discriminator0) append) ;;;
  let sample_count := sample_count (settings (cc self)) in
  let batch_size := images_batch_size sample_count batch_size in
  let image_format := image_format (settings (cc self)) in
  let path_real := path_join (output_dir (cc self)) ("real_images." +:+ image_format) in
  let path_fake :=
    path_join (output_dir (cc self))
              ("fake_images-" +:+ py_str (AInt (iteration + 1)) +:+ "." +:+ image_format) in
  save_images self batch_size input_var iteration loader path_fake (Some path_real) ;;;
  ret (path_real, path_fake).

(* ===================================================================== *)
(** ** What a run leaves behind, in closed form *)
(* ===================================================================== *)

Definition weights_path (self : NeuralNetworkTrainer) (prefix : string)
    (cell_number local_id : Z) : string :=
  path_join (output_dir (cc self)) (weights_filename prefix cell_number local_id).

Definition checkpoint_path (self : NeuralNetworkTrainer) (cell_number : Z) : string :=
  path_join (output_dir (cc self)) (checkpoint_filename cell_number).

(** The weight files the loop over [individuals] adds to [fs], the counter
    of local individuals starting at [local_id]. *)
Fixpoint weight_files (self : NeuralNetworkTrainer) (prefix : string)
    (cell_number : Z) (ns : loc -> Net) (individuals : list Individual)
    (local_id : Z) (fs : gmap string file) : gmap string file :=
  match individuals with
  | [] => fs
  | individual :: rest =>
      if is_local individual then
        weight_files self prefix cell_number ns rest (local_id + 1)
          (<[weights_path self prefix cell_number local_id :=
               PickleFile (weights (ns (net (genome individual))))]> fs)
      else weight_files self prefix cell_number ns rest local_id fs
  end.

(** How many of the first [k] individuals are local: the number in the
    weight file's name of the individual at index [k], when it is local. *)
Definition local_rank (individuals : list Individual) (k : nat) : Z :=
  Z.of_nat (length (List.filter is_local (take k individuals))).

Definition entries_of (individuals : list Individual) : list pyval :=
  map (fun individual => PDict (indiv_dict individual)) individuals.

Definition info_of (individuals : list Individual) : dict :=
  match individuals with
  | [] => []
  | individual0 :: _ =>
      [("learning_rate", PAtom (AStr (float_repr (learning_rate individual0))));
       ("individuals", PList (entries_of individuals))]
  end.

Definition checkpoint_of (time : string) (generators discriminators : list Individual)
    (cell_number : Z) (grid_position : Z * Z) (grid_size : Z)
    (generator0 : Individual) : dict :=
  [("time", PAtom (AStr time));
   ("generators", PDict (info_of generators));
   ("discriminators", PDict (info_of discriminators));
   ("id", PAtom (AInt cell_number));
   ("iteration", PAtom (iteration generator0));
   ("position", PDict [("x", PAtom (AInt (fst grid_position)));
                       ("y", PAtom (AInt (snd grid_position)))]);
   ("grid_size", PAtom (AInt grid_size))].

(** A file name the trainer builds never starts with a separator. *)
Definition plain_prefix (prefix : string) : Prop :=
  match prefix with
  | String c _ => Ascii.eqb c "/" = false
  | EmptyString => False
  end.

(** An entry of a checkpoint records an individual. *)
Definition records (individual : Individual) (entry : pyval) : Prop :=
  exists d, entry = PDict d /\
    dict_get "id" d = Some (PAtom (indiv_id individual)) /\
    dict_get "is_local" d = Some (PAtom (ABool (is_local individual))) /\
    dict_get "fitness" d = Some (PAtom (AFloat (fitness individual))) /\
    dict_get "source" d = Some (PAtom (source individual)).

(** The entry at index [k] of the population stored under [role] in the
    checkpoint [doc]. *)
Definition recorded (doc : dict) (role : string) (k : nat) (entry : pyval) : Prop :=
  exists info entries,
    dict_get role doc = Some (PDict info) /\
    dict_get "individuals" info = Some (PList entries) /\
    entries !! k = Some entry.

(** The files a call leaves once both populations have been gone through. *)
Definition files_after_populations (self : NeuralNetworkTrainer)
    (generators discriminators : list Individual) (c : Z) (w : World)
    : gmap string file :=
  weight_files self DISCRIMINATOR_PREFIX c (nets w) discriminators 0
    (weight_files self GENERATOR_PREFIX c (nets w) generators 0 (files w)).

(** [p] is the weight file of a local individual of [population], and [sd]
    are that individual's weights. *)
Definition weights_written (self : NeuralNetworkTrainer) (prefix : string)
    (cell_number : Z) (ns : loc -> Net) (population : list Individual)
    (p : string) (sd : state_dict) : Prop :=
  exists k individual,
    population !! k = Some individual /\ is_local individual = true /\
    p = weights_path self prefix cell_number (local_rank population k) /\
    sd = weights (ns (net (genome individual))).

(** The store after [eval()] then [train()] on each network of [ls] in turn. *)
Fixpoint switched (ls : list loc) (ns : loc -> Net) : loc -> Net :=
  match ls with
  | [] => ns
  | l :: rest => switched rest (switch l true (switch l false ns))
  end.

(** What the networks of [ls] generate from [z], each run in evaluation mode. *)
Fixpoint outputs (z : tensor) (ns : loc -> Net) (ls : list loc) : list tensor :=
  match ls with
  | [] => []
  | l :: rest =>
      Forward (weights (ns l)) false z
      :: outputs z (switch l true (switch l false ns)) rest
  end.

Definition nets_of (population : list Individual) : list loc :=
  map (fun individual => net (genome individual)) population.

(** Whether [save_images] goes through several generators. *)
Definition multiple_generators (self : NeuralNetworkTrainer) (loader : Loader) : bool :=
  has_save_images (dataset loader) &&
  logging_get (print_multiple_generators (settings (cc self))).

(** The generators [save_images] runs: the first five at most with
    [print_multiple_generators], the first one otherwise. *)
Definition generators_run (self : NeuralNetworkTrainer) (loader : Loader)
    : list Individual :=
  if multiple_generators self loader
  then take 5 (individuals (population_gen self))
  else take 1 (individuals (population_gen self)).

Definition uses_net (population : list Individual) (l : loc) : bool :=
  existsb (fun individual => Nat.eqb l (net (genome individual))) population.

(** The images an image file holds. *)
Definition file_images (f : file) : option generated :=
  match f with
  | DatasetImages images _ => Some images
  | LoaderImages images _ => Some (One images)
  | _ => None
  end.

(** The real images, saved on iteration 0. *)
Definition real_images_saved (iteration : Z) (path_real : option string)
    (f : file) (fs : gmap string file) : gmap string file :=
  if (iteration =? 0)%Z && truthy_path path_real
  then <[match path_real with Some p => p | None => "" end := f]> fs
  else fs.

(** The file of real images: written by the dataset's own [save_images]
    when it has one, by the dataloader's otherwise. *)
Definition real_file (loader : Loader) (input_var : InputBatch) : file :=
  if has_save_images (dataset loader)
  then DatasetImages (One (Input input_var)) None
  else LoaderImages (Input input_var) (train_data_shape (dataset loader)).

(** What [log_results] appends to its log line for the keyword arguments. *)
Definition kwargs_suffix (kwargs : list (string * atom)) : string :=
  let append :=
    join ", " (map (fun kv => fst kv +:+ "=" +:+ py_str (snd kv)) kwargs) in
  if String.eqb append "" then append else ", " +:+ append.

(* ===================================================================== *)
(** ** A small cell to run the trainer on *)
(* ===================================================================== *)

Definition demo_nets : loc -> Net := fun l =>
  match l with
  | 0%nat => {| weights := [("fc.weight", [Float "0.25"; Float "-1.5"])]; training := true |}
  | 1%nat => {| weights := [("fc.weight", [Float "0.75"; Float "2.0"])]; training := true |}
  | 2%nat => {| weights := [("fc.weight", [Float "3.5"])]; training := true |}
  | _ => {| weights := []; training := false |}
  end.

Definition demo_world : World :=
  {| files := ∅; nets := demo_nets; log := []; clock := "2019-05-01 12:00:00" |}.

(** A local generator, a generator received from a neighbour, and a local
    discriminator. *)
Definition demo_local : Individual :=
  {| indiv_id := AStr "a"; is_local := true; fitness := Float "0.6931";
     source := AStr "127.0.0.1:5000"; learning_rate := Float "0.0002";
     iteration := AInt 7; genome := {| net := 0%nat |} |}.

Definition demo_remote : Individual :=
  {| indiv_id := AStr "b"; is_local := false; fitness := Float "0.72";
     source := AStr "127.0.0.1:5001"; learning_rate := Float "0.5";
     iteration := AInt 6; genome := {| net := 1%nat |} |}.

Definition demo_discriminator : Individual :=
  {| indiv_id := AStr "c"; is_local := true; fitness := Float "1.3863";
     source := AStr "127.0.0.1:5000"; learning_rate := Float "0.0002";
     iteration := AInt 7; genome := {| net := 2%nat |} |}.

Definition demo_settings : Settings :=
  {| sample_count := None; dataset_name := "mnist"; image_format := "jpg";
     print_multiple_generators := None; print_discriminator := None |}.

Definition demo_trainer : NeuralNetworkTrainer :=
  {| cc := {| settings := demo_settings; output_dir := "out" |};
     network_factory := {| gen_input_size := 64 |};
     population_gen := {| individuals := [demo_local; demo_remote] |};
     population_dis := {| individuals := [demo_discriminator] |} |}.

Definition demo_input : InputBatch :=
  {| size0 := 200; size1 := 784; batch_name := "mnist batch" |}.

(** A loader whose dataset has no [save_images] of its own, and one whose
    dataset has. *)
Definition demo_loader : Loader :=
  {| dataset := {| has_save_images := false; train_data_shape := Some [60000; 28; 28] |} |}.

Definition demo_dataset_loader : Loader :=
  {| dataset := {| has_save_images := true; train_data_shape := None |} |}.

(** The same cell with [print_multiple_generators] switched on. *)
Definition demo_trainer_multiple : NeuralNetworkTrainer :=
  {| cc := {| settings :=
                {| sample_count := None; dataset_name := "gaussian_grid";
                   image_format := "jpg";
                   print_multiple_generators := Some true;
                   print_discriminator := None |};
              output_dir := "out" |};
     network_factory := {| gen_input_size := 64 |};
     population_gen := {| individuals := [demo_local; demo_remote] |};
     population_dis := {| individuals := [demo_discriminator] |} |}.

(** The same cell before it has any generator. *)
Definition demo_trainer_empty : NeuralNetworkTrainer :=
  {| cc := {| settings := demo_settings; output_dir := "out" |};
     network_factory := {| gen_input_size := 64 |};
     population_gen := {| individuals := [] |};
     population_dis := {| individuals := [demo_discriminator] |} |}.

(** The same world with every network in evaluation mode. *)
Definition demo_world_eval : World :=
  {| files := ∅; nets := fun l => with_training false (demo_nets l);
     log := []; clock := "2019-05-01 12:00:00" |}.

(* ===================================================================== *)
(** ** Further vocabulary *)
(* ===================================================================== *)

(** The same world at another time of day. *)
Definition set_clock (t : string) (w : World) : World :=
  {| files := files w; nets := nets w; log := log w; clock := t |}.

(** How many individuals of a population are local. *)
Definition local_count (individuals : list Individual) : Z :=
  Z.of_nat (length (List.filter is_local individuals)).

(** The keys of a dict, in order. *)
Definition dict_keys (d : dict) : list string := map fst d.

(** The noise [save_images] feeds the generators with. *)
Definition latent (self : NeuralNetworkTrainer) (batch_size : Z)
    (input_var : InputBatch) (loader : Loader) : tensor :=
  let z := noise batch_size (gen_input_size (network_factory self)) in
  if has_save_images (dataset loader) &&
     String.eqb (dataset_name (settings (cc self))) "network_traffic"
  then UnsqueezeRepeat z (size1 input_var)
  else z.

(** The tensors handed to the image writer. *)
Definition tensors_of (g : generated) : list tensor :=
  match g with
  | One t => [t]
  | Many ts => ts
  end.

(** Every scalar of a checkpoint value, the keys of its dicts included. *)
Fixpoint pyval_atoms (v : pyval) : list atom :=
  match v with
  | PAtom a => [a]
  | PList l =>
      (fix items (l : list pyval) : list atom :=
         match l with
         | [] => []
         | x :: rest => pyval_atoms x ++ items rest
         end) l
  | PDict d =>
      (fix entries (d : list (string * pyval)) : list atom :=
         match d with
         | [] => []
         | (k, x) :: rest => AStr k :: pyval_atoms x ++ entries rest
         end) d
  end.

(** Whether the float [x] is one of the weights of [sd]. *)
Definition state_dict_has (x : pyfloat) (sd : state_dict) : bool :=
  existsb (fun parameter =>
             existsb (fun y => String.eqb (float_repr y) (float_repr x)) (snd parameter))
          sd.

(** The weights a tensor was computed with. *)
Fixpoint tensor_weights (t : tensor) : list state_dict :=
  match t with
  | Input _ => []
  | Noise _ _ => []
  | UnsqueezeRepeat z _ => tensor_weights z
  | Forward sd _ z => sd :: tensor_weights z
  end.

(** Whether the float [x] can be found in the file [f]: among the weights
    a pickle holds or an image was computed with, or anywhere in a YAML
    document, as a scalar or a key that prints as [x] prints. *)
Definition file_mentions (x : pyfloat) (f : file) : bool :=
  match f with
  | YamlFile doc =>
      existsb (fun a => String.eqb (py_str a) (float_repr x)) (pyval_atoms doc)
  | PickleFile sd => state_dict_has x sd
  | DatasetImages images _ =>
      existsb (fun t => existsb (state_dict_has x) (tensor_weights t)) (tensors_of images)
  | LoaderImages images _ => existsb (state_dict_has x) (tensor_weights images)
  end.

(** The discriminator handed to the dataset's [save_images]. *)
Definition discriminator_shown (self : NeuralNetworkTrainer) : option Genome :=
  if logging_get (print_discriminator (settings (cc self)))
  then option_map genome (individuals (population_dis self) !! 0%nat)
  else None.

(** When [save_images] cannot get hold of a network it needs. *)
Definition lacks_generator (self : NeuralNetworkTrainer) (loader : Loader) : Prop :=
  multiple_generators self loader = false /\ individuals (population_gen self) = [].

Definition lacks_discriminator (self : NeuralNetworkTrainer) (loader : Loader) : Prop :=
  has_save_images (dataset loader) = true /\
  logging_get (print_discriminator (settings (cc self))) = true /\
  individuals (population_dis self) = [].

(** The text [log_results] logs for one keyword argument. *)
Definition kwarg_text (kv : string * atom) : string :=
  ", " +:+ fst kv +:+ "=" +:+ py_str (snd kv).

(** A cell without discriminators, and a trainer that shows the
    discriminator on the images. *)
Definition demo_trainer_discriminator : NeuralNetworkTrainer :=
  {| cc := {| settings :=
                {| sample_count := Some 16; dataset_name := "network_traffic";
                   image_format := "png";
                   print_multiple_generators := None;
                   print_discriminator := Some true |};
              output_dir := "out/" |};
     network_factory := {| gen_input_size := 64 |};
     population_gen := {| individuals := [demo_local; demo_remote] |};
     population_dis := {| individuals := [] |} |}.

(* ===================================================================== *)
(** ** Strings and paths *)
(* ===================================================================== *)

Lemma string_app_cons (c : ascii) (s t : string) :
  String c s +:+ t = String c (s +:+ t).
Proof. reflexivity. Qed.

Lemma string_app_length (s t : string) :
  String.length (s +:+ t) = (String.length s + String.length t)%nat.
Proof.
  induction s as [|c s IH]; [reflexivity|].
  rewrite string_app_cons. cbn [String.length]. now rewrite IH.
Qed.

Lemma string_app_inv_tail (s s' t : string) : s +:+ t = s' +:+ t -> s = s'.
Proof.
  revert s'. induction s as [|c s IH]; intros [|c' s'] H.
  - reflexivity.
  - apply (f_equal String.length) in H.
    rewrite !string_app_length in H. cbn [String.length] in H. lia.
  - apply (f_equal String.length) in H.
    rewrite !string_app_length in H. cbn [String.length] in H. lia.
  - rewrite !string_app_cons in H. injection H as -> H. f_equal. now apply IH.
Qed.

Lemma path_join_inj (a b b' : string) :
  starts_with_sep b = false -> starts_with_sep b' = false ->
  path_join a b = path_join a b' -> b = b'.
Proof.
  unfold path_join. intros -> ->.
  destruct (String.eqb a "" || ends_with_sep a); intros H.
  - now apply (inj (String.app a)) in H.
  - apply (inj (String.app a)) in H. now apply (inj (String.app "/")) in H.
Qed.

Lemma weights_filename_inj (prefix : string) (c j j' : Z) :
  weights_filename prefix c j = weights_filename prefix c j' -> j = j'.
Proof.
  unfold weights_filename. intros H.
  do 3 apply (inj (String.app _)) in H.
  apply string_app_inv_tail in H. now apply (inj pretty) in H.
Qed.

Lemma weights_filename_plain (prefix : string) (c j : Z) :
  plain_prefix prefix -> starts_with_sep (weights_filename prefix c j) = false.
Proof. destruct prefix as [|ch rest]; [intros []|]. intros H. exact H. Qed.

Lemma weights_path_inj (self : NeuralNetworkTrainer) (prefix : string) (c j j' : Z) :
  plain_prefix prefix ->
  weights_path self prefix c j = weights_path self prefix c j' -> j = j'.
Proof.
  intros Hp H. apply path_join_inj in H; auto using weights_filename_plain.
  now apply weights_filename_inj in H.
Qed.

(** A generator's weight file is never a discriminator's. *)
Lemma weights_path_roles (self : NeuralNetworkTrainer) (c j j' : Z) :
  weights_path self GENERATOR_PREFIX c j <> weights_path self DISCRIMINATOR_PREFIX c j'.
Proof.
  intros H. apply path_join_inj in H; [|reflexivity|reflexivity]. discriminate H.
Qed.

(** The checkpoint is not a weight file. *)
Lemma checkpoint_path_not_weights (self : NeuralNetworkTrainer) (prefix : string)
    (c c' j : Z) :
  prefix = GENERATOR_PREFIX \/ prefix = DISCRIMINATOR_PREFIX ->
  weights_path self prefix c j <> checkpoint_path self c'.
Proof.
  intros [-> | ->] H;
    (apply path_join_inj in H; [|reflexivity|reflexivity]); discriminate H.
Qed.

(* ===================================================================== *)
(** ** save_checkpoint *)
(* ===================================================================== *)

Lemma set_files_same (w : World) : set_files (files w) w = w.
Proof. now destruct w. Qed.

Section WeightFiles.
Variable self : NeuralNetworkTrainer.
Variable prefix : string.
Variable c : Z.
Variable ns : loc -> Net.
Hypothesis prefix_plain : plain_prefix prefix.

(** The loop writes weight files only, numbered from its counter on. *)
Lemma weight_files_other (individuals : list Individual) (j : Z)
    (fs : gmap string file) (p : string) :
  (forall j', j <= j' -> p <> weights_path self prefix c j') ->
  weight_files self prefix c ns individuals j fs !! p = fs !! p.
Proof using Type.
  revert j fs. induction individuals as [|a rest IH]; intros j fs Hp; [reflexivity|].
  cbn [weight_files]. destruct (is_local a).
  - rewrite IH by (intros j' Hj'; apply Hp; lia).
    apply lookup_insert_ne. intros E. apply (Hp j); [lia | now symmetry].
  - apply IH, Hp.
Qed.

(** A file written with a smaller number is not written again. *)
Lemma weight_files_earlier (individuals : list Individual) (j j0 : Z)
    (fs : gmap string file) :
  j0 < j ->
  weight_files self prefix c ns individuals j fs !! weights_path self prefix c j0
  = fs !! weights_path self prefix c j0.
Proof using prefix_plain.
  intros Hlt. apply weight_files_other. intros j' Hj' E.
  apply weights_path_inj in E; [lia | exact prefix_plain].
Qed.

(** Every local individual has its weights in the file named after its
    rank among the local individuals. *)
Lemma weight_files_local (individuals : list Individual) (j : Z)
    (fs : gmap string file) (k : nat) (individual : Individual) :
  individuals !! k = Some individual ->
  is_local individual = true ->
  weight_files self prefix c ns individuals j fs
    !! weights_path self prefix c (j + local_rank individuals k)
  = Some (PickleFile (weights (ns (net (genome individual))))).
Proof using prefix_plain.
  revert j fs k. induction individuals as [|a rest IH]; intros j fs k Hk Hloc.
  - discriminate Hk.
  - destruct k as [|k].
    + injection Hk as ->. cbn [weight_files]. rewrite Hloc.
      unfold local_rank; cbn. rewrite Z.add_0_r.
      rewrite weight_files_earlier by lia. apply lookup_insert_eq.
    + cbn in Hk. cbn [weight_files]. unfold local_rank. cbn [take List.filter].
      destruct (is_local a) eqn:Ha.
      * cbn [length]. rewrite Nat2Z.inj_succ.
        replace (j + Z.succ (Z.of_nat (length (List.filter is_local (take k rest)))))
          with ((j + 1) + local_rank rest k) by (unfold local_rank; lia).
        now apply IH.
      * now apply IH.
Qed.

(** Nothing else is written: a path that is no local individual's weight
    file keeps what it had. *)
Lemma weight_files_untouched (individuals : list Individual) (j : Z)
    (fs : gmap string file) (p : string) :
  (forall k individual,
      individuals !! k = Some individual -> is_local individual = true ->
      p <> weights_path self prefix c (j + local_rank individuals k)) ->
  weight_files self prefix c ns individuals j fs !! p = fs !! p.
Proof using Type.
  revert j fs. induction individuals as [|a rest IH]; intros j fs Hp; [reflexivity|].
  cbn [weight_files]. destruct (is_local a) eqn:Ha.
  - rewrite IH.
    + apply lookup_insert_ne. intros E.
      apply (Hp 0%nat a); [reflexivity | exact Ha |].
      unfold local_rank; cbn. now rewrite Z.add_0_r.
    + intros k individual Hk Hloc E. apply (Hp (S k) individual Hk Hloc).
      rewrite E. f_equal. unfold local_rank. cbn [take List.filter].
      rewrite Ha. cbn [length]. lia.
  - apply IH. intros k individual Hk Hloc E. apply (Hp (S k) individual Hk Hloc).
    rewrite E. f_equal. unfold local_rank. cbn [take List.filter].
    now rewrite Ha.
Qed.
End WeightFiles.

Lemma individuals_loop_run (self : NeuralNetworkTrainer) (prefix : string) (c : Z)
    (individuals : list Individual) (j : Z) (entries : list pyval) (w : World) :
  individuals_loop self prefix c individuals j entries w
  = (Return (entries ++ entries_of individuals),
     set_files (weight_files self prefix c (nets w) individuals j (files w)) w).
Proof.
  revert j entries w. induction individuals as [|a rest IH]; intros j entries w.
  - cbn. now rewrite app_nil_r, set_files_same.
  - cbn [individuals_loop weight_files entries_of map].
    destruct (is_local a).
    + unfold bind at 1. unfold torch_save_state_dict, bind, get_net, write_file.
      rewrite IH. cbn [nets files set_files]. now rewrite <- app_assoc.
    + rewrite IH. now rewrite <- app_assoc.
Qed.

Lemma get_individuals_information_run (self : NeuralNetworkTrainer)
    (individuals : list Individual) (prefix : string) (c : Z) (w : World) :
  get_individuals_information self individuals prefix c w
  = (Return (info_of individuals),
     set_files (weight_files self prefix c (nets w) individuals 0 (files w)) w).
Proof.
  destruct individuals as [|a rest].
  - cbn. now rewrite set_files_same.
  - unfold get_individuals_information, bind. now rewrite individuals_loop_run.
Qed.

Lemma save_checkpoint_run (self : NeuralNetworkTrainer)
    (generator0 : Individual) (generators discriminators : list Individual)
    (c : Z) (grid_position : Z * Z) (grid_size : Z) (w : World) :
  save_checkpoint self (generator0 :: generators) discriminators c grid_position grid_size w
  = (Return tt,
     set_files
       (<[checkpoint_path self c :=
            YamlFile (PDict (checkpoint_of (clock w) (generator0 :: generators)
                                           discriminators c grid_position grid_size
                                           generator0))]>
          (files_after_populations self (generator0 :: generators) discriminators c w))
       w).
Proof.
  unfold save_checkpoint, bind, now.
  rewrite get_individuals_information_run.
  rewrite get_individuals_information_run.
  reflexivity.
Qed.

Lemma save_checkpoint_empty (self : NeuralNetworkTrainer)
    (discriminators : list Individual)
    (c : Z) (grid_position : Z * Z) (grid_size : Z) (w : World) :
  save_checkpoint self [] discriminators c grid_position grid_size w
  = (Raise IndexError,
     set_files (weight_files self DISCRIMINATOR_PREFIX c (nets w) discriminators 0 (files w)) w).
Proof.
  unfold save_checkpoint, bind, now.
  rewrite get_individuals_information_run.
  rewrite get_individuals_information_run.
  cbn. now rewrite set_files_same.
Qed.

Lemma entries_of_lookup (individuals : list Individual) (k : nat) :
  entries_of individuals !! k
  = option_map (fun individual => PDict (indiv_dict individual)) (individuals !! k).
Proof.
  revert k. induction individuals as [|a rest IH]; intros [|k]; try reflexivity.
  apply IH.
Qed.

Lemma indiv_dict_records (individual : Individual) :
  records individual (PDict (indiv_dict individual)).
Proof. exists (indiv_dict individual). repeat split. Qed.

Lemma entries_of_records (individuals : list Individual) :
  Forall2 records individuals (entries_of individuals).
Proof.
  induction individuals as [|a rest IH]; constructor; auto using indiv_dict_records.
Qed.

Lemma info_of_individuals (individuals : list Individual) :
  individuals <> [] ->
  dict_get "individuals" (info_of individuals) = Some (PList (entries_of individuals)).
Proof. destruct individuals; [congruence | reflexivity]. Qed.

(** C1. A call with non-empty generators and non-empty discriminators writes
    a checkpoint that holds, under 'generators' and under 'discriminators',
    an 'individuals' list with one entry per individual of the population,
    in the population's order, each recording the individual's id, is_local
    flag, fitness and source. *)
Theorem save_checkpoint_individuals (self : NeuralNetworkTrainer)
    (generators discriminators : list Individual)
    (cell_number : Z) (grid_position : Z * Z) (grid_size : Z) (w : World) :
  generators <> [] -> discriminators <> [] ->
  exists w' doc gen_info gen_entries dis_info dis_entries,
    save_checkpoint self generators discriminators cell_number grid_position grid_size w
    = (Return tt, w') /\
    files w' !! checkpoint_path self cell_number = Some (YamlFile (PDict doc)) /\
    dict_get "generators" doc = Some (PDict gen_info) /\
    dict_get "individuals" gen_info = Some (PList gen_entries) /\
    Forall2 records generators gen_entries /\
    dict_get "discriminators" doc = Some (PDict dis_info) /\
    dict_get "individuals" dis_info = Some (PList dis_entries) /\
    Forall2 records discriminators dis_entries.
Proof.
  intros Hg Hd. destruct generators as [|g0 gens]; [congruence|].
  eexists _, _, _, _, _, _. split; [apply save_checkpoint_run|].
  split; [apply lookup_insert_eq|].
  split; [reflexivity|]. split; [reflexivity|].
  split; [apply entries_of_records|].
  split; [reflexivity|].
  split; [now apply info_of_individuals | apply entries_of_records].
Qed.

Lemma save_checkpoint_individuals_witness :
  exists w' doc gen_info gen_entries dis_info dis_entries,
    save_checkpoint demo_trainer [demo_local; demo_remote] [demo_discriminator]
                    4 (1, 2) 9 demo_world
    = (Return tt, w') /\
    files w' !! checkpoint_path demo_trainer 4 = Some (YamlFile (PDict doc)) /\
    dict_get "generators" doc = Some (PDict gen_info) /\
    dict_get "individuals" gen_info = Some (PList gen_entries) /\
    Forall2 records [demo_local; demo_remote] gen_entries /\
    dict_get "discriminators" doc = Some (PDict dis_info) /\
    dict_get "individuals" dis_info = Some (PList dis_entries) /\
    Forall2 records [demo_discriminator] dis_entries.
Proof. apply save_checkpoint_individuals; discriminate. Defined.

(** C3. A call with a non-empty generators list writes a checkpoint whose
    'iteration' is the iteration of the first generator of the list. *)
Theorem save_checkpoint_iteration (self : NeuralNetworkTrainer)
    (generators discriminators : list Individual) (generator0 : Individual)
    (cell_number : Z) (grid_position : Z * Z) (grid_size : Z) (w : World) :
  generators !! 0%nat = Some generator0 ->
  exists w' doc,
    save_checkpoint self generators discriminators cell_number grid_position grid_size w
    = (Return tt, w') /\
    files w' !! checkpoint_path self cell_number = Some (YamlFile (PDict doc)) /\
    dict_get "iteration" doc = Some (PAtom (iteration generator0)).
Proof.
  destruct generators as [|g0 gens]; [discriminate|]. intros [= ->].
  eexists _, _. split; [apply save_checkpoint_run|].
  split; [apply lookup_insert_eq | reflexivity].
Qed.

Lemma save_checkpoint_iteration_witness :
  exists w' doc,
    save_checkpoint demo_trainer [demo_local; demo_remote] [demo_discriminator]
                    4 (1, 2) 9 demo_world
    = (Return tt, w') /\
    files w' !! checkpoint_path demo_trainer 4 = Some (YamlFile (PDict doc)) /\
    dict_get "iteration" doc = Some (PAtom (AInt 7)).
Proof. apply (save_checkpoint_iteration demo_trainer _ _ demo_local). reflexivity. Defined.

(** C5, as amended.  A call with a non-empty generators list, cell number
    [c], grid position [(x, y)] and grid size [s] writes the checkpoint as
    YAML to 'checkpoint-<c>.yml' in the output directory, with 'id' [c],
    'position' holding 'x' [x] and 'y' [y], and 'grid_size' [s]. *)
Theorem save_checkpoint_cell (self : NeuralNetworkTrainer)
    (generators discriminators : list Individual) (c x y s : Z) (w : World) :
  generators <> [] ->
  exists w' doc position,
    save_checkpoint self generators discriminators c (x, y) s w = (Return tt, w') /\
    files w' !! path_join (output_dir (cc self))
                          ("checkpoint-" +:+ py_str (AInt c) +:+ ".yml")
    = Some (YamlFile (PDict doc)) /\
    dict_get "id" doc = Some (PAtom (AInt c)) /\
    dict_get "position" doc = Some (PDict position) /\
    dict_get "x" position = Some (PAtom (AInt x)) /\
    dict_get "y" position = Some (PAtom (AInt y)) /\
    dict_get "grid_size" doc = Some (PAtom (AInt s)).
Proof.
  intros Hg. destruct generators as [|g0 gens]; [congruence|].
  eexists _, _, _. split; [apply save_checkpoint_run|].
  split; [apply lookup_insert_eq|]. repeat split.
Qed.

Lemma save_checkpoint_cell_witness :
  exists w' doc position,
    save_checkpoint demo_trainer [demo_local; demo_remote] [demo_discriminator]
                    4 (1, 2) 9 demo_world = (Return tt, w') /\
    files w' !! path_join "out" ("checkpoint-" +:+ py_str (AInt 4) +:+ ".yml")
    = Some (YamlFile (PDict doc)) /\
    dict_get "id" doc = Some (PAtom (AInt 4)) /\
    dict_get "position" doc = Some (PDict position) /\
    dict_get "x" position = Some (PAtom (AInt 1)) /\
    dict_get "y" position = Some (PAtom (AInt 2)) /\
    dict_get "grid_size" doc = Some (PAtom (AInt 9)).
Proof. apply (save_checkpoint_cell demo_trainer). discriminate. Defined.

(** C5 as stated fails on an empty generators list: the call raises
    IndexError and there is no 'checkpoint-4.yml'. *)
Lemma save_checkpoint_cell_counterexample :
  exists w',
    save_checkpoint demo_trainer [] [demo_discriminator] 4 (1, 2) 9 demo_world
    = (Raise IndexError, w') /\
    path_join "out" ("checkpoint-" +:+ py_str (AInt 4) +:+ ".yml") = "out/checkpoint-4.yml" /\
    files w' !! "out/checkpoint-4.yml" = None.
Proof.
  eexists. split; [apply save_checkpoint_empty|].
  split; vm_compute; reflexivity.
Qed.

(** C7. Every individual of either population is recorded in the written
    checkpoint, at its place in the 'individuals' list of its population,
    by an entry that carries that individual's [source] and [is_local],
    unchanged; and every entry of these lists is the entry of such an
    individual. *)
Theorem checkpoint_source_is_local (self : NeuralNetworkTrainer)
    (generators discriminators : list Individual)
    (cell_number : Z) (grid_position : Z * Z) (grid_size : Z) (w w' : World) :
  save_checkpoint self generators discriminators cell_number grid_position grid_size w
  = (Return tt, w') ->
  exists doc,
    files w' !! checkpoint_path self cell_number = Some (YamlFile (PDict doc)) /\
    forall role population,
      (role, population) = ("generators", generators) \/
      (role, population) = ("discriminators", discriminators) ->
      (forall k individual,
          population !! k = Some individual ->
          exists d,
            recorded doc role k (PDict d) /\
            dict_get "source" d = Some (PAtom (source individual)) /\
            dict_get "is_local" d = Some (PAtom (ABool (is_local individual)))) /\
      (forall k entry,
          recorded doc role k entry ->
          exists individual d,
            population !! k = Some individual /\ entry = PDict d /\
            dict_get "source" d = Some (PAtom (source individual)) /\
            dict_get "is_local" d = Some (PAtom (ABool (is_local individual)))).
Proof.
  destruct generators as [|g0 gens].
  { rewrite save_checkpoint_empty. discriminate. }
  rewrite save_checkpoint_run. intros [= <-].
  eexists. split; [apply lookup_insert_eq|].
  intros role population Hrole.
  assert (dict_get role
            (checkpoint_of (clock w) (g0 :: gens) discriminators cell_number
                           grid_position grid_size g0)
          = Some (PDict (info_of population))) as Hinfo
      by (destruct Hrole as [E | E]; injection E as -> ->; reflexivity).
  split.
  - intros k individual Hk. exists (indiv_dict individual). split; [|split; reflexivity].
    exists (info_of population), (entries_of population).
    split; [exact Hinfo|]. split.
    + apply info_of_individuals. intros ->. discriminate Hk.
    + rewrite entries_of_lookup. now rewrite Hk.
  - intros k entry (info & entries & Hinfo' & Hentries & Hk).
    rewrite Hinfo in Hinfo'. injection Hinfo' as <-.
    assert (entries = entries_of population) as ->.
    { destruct population; cbn in Hentries; [discriminate|].
      now injection Hentries as <-. }
    rewrite entries_of_lookup in Hk.
    destruct (population !! k) as [individual|]; [|discriminate].
    injection Hk as <-. exists individual, (indiv_dict individual). repeat split.
Qed.

Lemma checkpoint_source_is_local_witness :
  exists doc,
    files (snd (save_checkpoint demo_trainer [demo_local; demo_remote]
                                [demo_discriminator] 4 (1, 2) 9 demo_world))
      !! checkpoint_path demo_trainer 4 = Some (YamlFile (PDict doc)) /\
    forall role population,
      (role, population) = ("generators", [demo_local; demo_remote]) \/
      (role, population) = ("discriminators", [demo_discriminator]) ->
      (forall k individual,
          population !! k = Some individual ->
          exists d,
            recorded doc role k (PDict d) /\
            dict_get "source" d = Some (PAtom (source individual)) /\
            dict_get "is_local" d = Some (PAtom (ABool (is_local individual)))) /\
      (forall k entry,
          recorded doc role k entry ->
          exists individual d,
            population !! k = Some individual /\ entry = PDict d /\
            dict_get "source" d = Some (PAtom (source individual)) /\
            dict_get "is_local" d = Some (PAtom (ABool (is_local individual)))).
Proof.
  apply (checkpoint_source_is_local demo_trainer _ _ 4 (1, 2) 9 demo_world).
  apply save_checkpoint_run.
Defined.

Lemma save_checkpoint_files_other (self : NeuralNetworkTrainer)
    (generators discriminators : list Individual)
    (c : Z) (grid_position : Z * Z) (grid_size : Z) (w : World) (p : string) :
  p <> checkpoint_path self c ->
  files (snd (save_checkpoint self generators discriminators c grid_position grid_size w)) !! p
  = files_after_populations self generators discriminators c w !! p.
Proof.
  intros Hp. destruct generators as [|g0 gens].
  - now rewrite save_checkpoint_empty.
  - rewrite save_checkpoint_run. cbn [snd files set_files].
    now apply lookup_insert_ne.
Qed.

(** C2, as amended.  Whatever the outcome of the call, the weights of every
    individual whose is_local flag is set are in a file of their own,
    '<prefix><cell>-<n>.pkl' in the output directory, [n] counting the local
    individuals before it in its population; apart from these files and the
    checkpoint file, nothing is written, so the weights of an individual
    that is not local are not saved.  No weights go into the YAML
    checkpoint: what the call leaves at the checkpoint path is the same
    whatever the weights (and the modes) of the networks are, and when the
    checkpoint is written it is the document of seven entries made of the
    time, the arguments and the attributes of the individuals. *)
Theorem save_checkpoint_weights (self : NeuralNetworkTrainer)
    (generators discriminators : list Individual)
    (cell_number : Z) (grid_position : Z * Z) (grid_size : Z) (w : World) :
  let w' := snd (save_checkpoint self generators discriminators cell_number
                                 grid_position grid_size w) in
  (forall p sd,
      weights_written self GENERATOR_PREFIX cell_number (nets w) generators p sd \/
      weights_written self DISCRIMINATOR_PREFIX cell_number (nets w) discriminators p sd ->
      files w' !! p = Some (PickleFile sd)) /\
  (forall p,
      p <> checkpoint_path self cell_number ->
      (forall sd, ~ weights_written self GENERATOR_PREFIX cell_number (nets w) generators p sd) ->
      (forall sd, ~ weights_written self DISCRIMINATOR_PREFIX cell_number (nets w) discriminators p sd) ->
      files w' !! p = files w !! p) /\
  (forall other_nets,
      files (snd (save_checkpoint self generators discriminators cell_number
                                  grid_position grid_size (set_nets other_nets w)))
        !! checkpoint_path self cell_number
      = files w' !! checkpoint_path self cell_number) /\
  (forall generator0,
      generators !! 0%nat = Some generator0 ->
      files w' !! checkpoint_path self cell_number
      = Some (YamlFile
                (PDict (checkpoint_of (clock w) generators discriminators cell_number
                                      grid_position grid_size generator0)))).
Proof.
  intros w'. subst w'. split; [|split; [|split]].
  - intros p sd [(k & ind & Hk & Hloc & -> & ->) | (k & ind & Hk & Hloc & -> & ->)].
    + rewrite save_checkpoint_files_other
        by (apply checkpoint_path_not_weights; now left).
      unfold files_after_populations.
      rewrite weight_files_other by (intros j' _; apply weights_path_roles).
      now apply (weight_files_local self GENERATOR_PREFIX cell_number (nets w)
                   eq_refl generators 0 (files w) k ind).
    + rewrite save_checkpoint_files_other
        by (apply checkpoint_path_not_weights; now right).
      unfold files_after_populations.
      now apply (weight_files_local self DISCRIMINATOR_PREFIX cell_number (nets w)
                   eq_refl discriminators 0 _ k ind).
  - intros p Hp Hg Hd. rewrite save_checkpoint_files_other by exact Hp.
    unfold files_after_populations.
    rewrite weight_files_untouched.
    + apply weight_files_untouched. intros k ind Hk Hloc E.
      apply (Hg (weights (nets w (net (genome ind))))). now exists k, ind.
    + intros k ind Hk Hloc E.
      apply (Hd (weights (nets w (net (genome ind))))). now exists k, ind.
  - intros other_nets. destruct generators as [|g0 gens].
    + rewrite !save_checkpoint_empty. cbn [snd files nets set_files set_nets].
      rewrite !weight_files_other; [reflexivity | |];
        intros j' _ E; symmetry in E; revert E;
        apply checkpoint_path_not_weights; now right.
    + rewrite !save_checkpoint_run. cbn [snd files clock set_files set_nets].
      now rewrite !lookup_insert_eq.
  - intros g0 Hg0. destruct generators as [|g gens]; [discriminate Hg0|].
    injection Hg0 as ->. rewrite save_checkpoint_run. apply lookup_insert_eq.
Qed.

Lemma save_checkpoint_weights_witness :
  files (snd (save_checkpoint demo_trainer [demo_local; demo_remote]
                              [demo_discriminator] 4 (1, 2) 9 demo_world))
    !! weights_path demo_trainer GENERATOR_PREFIX 4 0
  = Some (PickleFile [("fc.weight", [Float "0.25"; Float "-1.5"])]).
Proof.
  apply (proj1 (save_checkpoint_weights demo_trainer [demo_local; demo_remote]
                  [demo_discriminator] 4 (1, 2) 9 demo_world)).
  left. exists 0%nat, demo_local. repeat split.
Defined.

(** C2 as stated fails: the second generator of the cell is not local, and
    after the call neither of its two weights can be found in any file,
    the YAML checkpoint included. *)
Lemma save_checkpoint_weights_counterexample :
  exists w',
    save_checkpoint demo_trainer [demo_local; demo_remote] [demo_discriminator]
                    4 (1, 2) 9 demo_world = (Return tt, w') /\
    is_local demo_remote = false /\
    weights (nets demo_world (net (genome demo_remote)))
    = [("fc.weight", [Float "0.75"; Float "2.0"])] /\
    (exists doc, files w' !! "out/checkpoint-4.yml" = Some (YamlFile doc)) /\
    forall p f, files w' !! p = Some f ->
                file_mentions (Float "0.75") f = false /\
                file_mentions (Float "2.0") f = false.
Proof.
  eexists. split; [apply save_checkpoint_run|]. split; [reflexivity|].
  split; [reflexivity|]. split; [eexists; vm_compute; reflexivity|].
  apply (bool_decide_unpack (map_Forall _ _)). vm_compute. exact I.
Qed.

(** C4, as amended.  In the checkpoint a call writes, every individual of
    either population has its entry in the 'individuals' list of its
    population, and the entry holds that individual's fitness; it holds no
    learning rate (its keys are id, is_local, fitness and source).  The
    learning rate is recorded once for the population, under its
    'learning_rate': the learning rate of its first individual, as text. *)
Theorem checkpoint_fitness_learning_rate (self : NeuralNetworkTrainer)
    (generators discriminators : list Individual)
    (cell_number : Z) (grid_position : Z * Z) (grid_size : Z) (w w' : World) :
  save_checkpoint self generators discriminators cell_number grid_position grid_size w
  = (Return tt, w') ->
  exists doc,
    files w' !! checkpoint_path self cell_number = Some (YamlFile (PDict doc)) /\
    forall role population k individual,
      (role, population) = ("generators", generators) \/
      (role, population) = ("discriminators", discriminators) ->
      population !! k = Some individual ->
      exists info entries d individual0,
        dict_get role doc = Some (PDict info) /\
        dict_get "individuals" info = Some (PList entries) /\
        entries !! k = Some (PDict d) /\
        dict_get "fitness" d = Some (PAtom (AFloat (fitness individual))) /\
        dict_keys d = ["id"; "is_local"; "fitness"; "source"] /\
        dict_get "learning_rate" d = None /\
        population !! 0%nat = Some individual0 /\
        dict_get "learning_rate" info
        = Some (PAtom (AStr (py_str (AFloat (learning_rate individual0))))).
Proof.
  destruct generators as [|g0 gens].
  { rewrite save_checkpoint_empty. discriminate. }
  rewrite save_checkpoint_run. intros [= <-].
  eexists. split; [apply lookup_insert_eq|].
  intros role population k individual Hrole Hk.
  assert (dict_get role
            (checkpoint_of (clock w) (g0 :: gens) discriminators cell_number
                           grid_position grid_size g0)
          = Some (PDict (info_of population))) as Hinfo
      by (destruct Hrole as [E | E]; injection E as -> ->; reflexivity).
  destruct population as [|a rest]; [discriminate Hk|].
  exists (info_of (a :: rest)), (entries_of (a :: rest)), (indiv_dict individual), a.
  split; [exact Hinfo|]. split; [reflexivity|]. split; [|repeat split].
  rewrite entries_of_lookup. now rewrite Hk.
Qed.

Lemma checkpoint_fitness_learning_rate_witness :
  exists doc,
    files (snd (save_checkpoint demo_trainer [demo_local; demo_remote]
                                [demo_discriminator] 4 (1, 2) 9 demo_world))
      !! checkpoint_path demo_trainer 4 = Some (YamlFile (PDict doc)) /\
    forall role population k individual,
      (role, population) = ("generators", [demo_local; demo_remote]) \/
      (role, population) = ("discriminators", [demo_discriminator]) ->
      population !! k = Some individual ->
      exists info entries d individual0,
        dict_get role doc = Some (PDict info) /\
        dict_get "individuals" info = Some (PList entries) /\
        entries !! k = Some (PDict d) /\
        dict_get "fitness" d = Some (PAtom (AFloat (fitness individual))) /\
        dict_keys d = ["id"; "is_local"; "fitness"; "source"] /\
        dict_get "learning_rate" d = None /\
        population !! 0%nat = Some individual0 /\
        dict_get "learning_rate" info
        = Some (PAtom (AStr (py_str (AFloat (learning_rate individual0))))).
Proof.
  apply (checkpoint_fitness_learning_rate demo_trainer _ _ 4 (1, 2) 9 demo_world).
  apply save_checkpoint_run.
Defined.

(** C4 as stated fails: the second generator has learning rate 0.5; its
    entry in the checkpoint has no learning rate, and the one learning rate
    of the population is 0.0002, the first generator's. *)
Lemma learning_rate_counterexample :
  exists w' doc info entries,
    save_checkpoint demo_trainer [demo_local; demo_remote] [demo_discriminator]
                    4 (1, 2) 9 demo_world = (Return tt, w') /\
    files w' !! "out/checkpoint-4.yml" = Some (YamlFile (PDict doc)) /\
    dict_get "generators" doc = Some (PDict info) /\
    dict_get "individuals" info = Some (PList entries) /\
    learning_rate demo_remote = Float "0.5" /\
    entries !! 1%nat
    = Some (PDict [("id", PAtom (AStr "b")); ("is_local", PAtom (ABool false));
                   ("fitness", PAtom (AFloat (Float "0.72")));
                   ("source", PAtom (AStr "127.0.0.1:5001"))]) /\
    info = [("learning_rate", PAtom (AStr "0.0002")); ("individuals", PList entries)].
Proof.
  eexists _, _, _, _. split; [apply save_checkpoint_run|].
  split; [apply lookup_insert_eq|]. repeat split.
Qed.

(** C10, as amended.  A call with an empty generators list raises IndexError
    (at [generators[0]]) although [get_individuals_information] returns an
    empty dict for the empty population.  No checkpoint file is written;
    networks, log and clock are as before.  The weight files of the local
    discriminators have been written by then, and nothing else: the files
    are unchanged when no discriminator is local. *)
Theorem save_checkpoint_no_generators (self : NeuralNetworkTrainer)
    (discriminators : list Individual)
    (cell_number : Z) (grid_position : Z * Z) (grid_size : Z) (w : World) :
  exists w',
    save_checkpoint self [] discriminators cell_number grid_position grid_size w
    = (Raise IndexError, w') /\
    get_individuals_information self [] GENERATOR_PREFIX cell_number w = (Return [], w) /\
    files w' !! checkpoint_path self cell_number = files w !! checkpoint_path self cell_number /\
    nets w' = nets w /\ log w' = log w /\ clock w' = clock w /\
    (forall p sd,
        weights_written self DISCRIMINATOR_PREFIX cell_number (nets w) discriminators p sd ->
        files w' !! p = Some (PickleFile sd)) /\
    (forall p,
        (forall sd, ~ weights_written self DISCRIMINATOR_PREFIX cell_number (nets w)
                                      discriminators p sd) ->
        files w' !! p = files w !! p) /\
    (Forall (fun d => is_local d = false) discriminators -> w' = w).
Proof.
  eexists. split; [apply save_checkpoint_empty|].
  split; [reflexivity|]. cbn [files nets log clock set_files].
  split.
  { apply weight_files_other. intros j' _ E.
    symmetry in E. revert E. apply checkpoint_path_not_weights. now right. }
  do 3 (split; [reflexivity|]). split; [|split].
  - intros p sd (k & ind & Hk & Hloc & -> & ->).
    now apply (weight_files_local self DISCRIMINATOR_PREFIX cell_number (nets w)
                 eq_refl discriminators 0 _ k ind).
  - intros p Hp. apply weight_files_untouched. intros k ind Hk Hloc E.
    apply (Hp (weights (nets w (net (genome ind))))). now exists k, ind.
  - intros Hall.
    assert (forall j fs, weight_files self DISCRIMINATOR_PREFIX cell_number (nets w)
                                      discriminators j fs = fs) as ->.
    { induction Hall as [|d rest Hd _ IH]; intros j fs; [reflexivity|].
      cbn [weight_files]. rewrite Hd. apply IH. }
    apply set_files_same.
Qed.

(** C10 as stated fails: with no generator and one local discriminator the
    call raises IndexError, and the discriminator's weight file, which was
    not there before, has been written. *)
Lemma save_checkpoint_no_generators_counterexample :
  exists w',
    save_checkpoint demo_trainer [] [demo_discriminator] 4 (1, 2) 9 demo_world
    = (Raise IndexError, w') /\
    files demo_world !! "out/discriminator-4-0.pkl" = None /\
    files w' !! "out/discriminator-4-0.pkl"
    = Some (PickleFile [("fc.weight", [Float "3.5"])]) /\
    w' <> demo_world.
Proof.
  eexists. split; [apply save_checkpoint_empty|].
  split; [reflexivity|]. split; [vm_compute; reflexivity|].
  intros E. apply (f_equal (fun w => files w !! "out/discriminator-4-0.pkl")) in E.
  vm_compute in E. discriminate E.
Qed.

(* ===================================================================== *)

Lemma set_nets_same (w : World) : set_nets (nets w) w = w.
Proof. now destruct w. Qed.

Lemma bind_return {A B} (c : M A) (k : A -> M B) (w w' : World) (a : A) :
  c w = (Return a, w') -> bind c k w = k a w'.
Proof. unfold bind. now intros ->. Qed.

Lemma bind_raise {A B} (c : M A) (k : A -> M B) (w w' : World) (e : exn) :
  c w = (Raise e, w') -> bind c k w = (Raise e, w').
Proof. unfold bind. now intros ->. Qed.

Lemma switch_same (l : loc) (flag : bool) (ns : loc -> Net) :
  switch l flag ns l = with_training flag (ns l).
Proof. unfold switch. now rewrite Nat.eqb_refl. Qed.

(** One generator at work: [gen.eval()], [gen(z)], [gen.train()]. *)
Lemma eval_call_train {A} (l : loc) (z : tensor) (k : tensor -> M A) (w : World) :
  (net_eval l ;;; let* out := net_call l z in net_train l ;;; k out) w
  = k (Forward (weights (nets w l)) false z)
      (set_nets (switch l true (switch l false (nets w))) w).
Proof.
  unfold bind, net_eval, net_train, net_call, set_training, get_net, bind, ret.
  cbn [nets set_nets]. now rewrite switch_same.
Qed.

Lemma switched_weights (ls : list loc) (ns : loc -> Net) (l : loc) :
  weights (switched ls ns l) = weights (ns l).
Proof.
  revert ns. induction ls as [|l0 rest IH]; intros ns; [reflexivity|].
  cbn [switched]. rewrite IH. unfold switch. now destruct (Nat.eqb l l0).
Qed.

Lemma switched_training (ls : list loc) (ns : loc -> Net) (l : loc) :
  training (switched ls ns l) = existsb (Nat.eqb l) ls || training (ns l).
Proof.
  revert ns. induction ls as [|l0 rest IH]; intros ns; [reflexivity|].
  cbn [switched existsb]. rewrite IH. unfold switch.
  destruct (Nat.eqb l l0); cbn; [now rewrite orb_true_r | reflexivity].
Qed.

Lemma outputs_map (z : tensor) (ns : loc -> Net) (ls : list loc) :
  outputs z ns ls = map (fun l => Forward (weights (ns l)) false z) ls.
Proof.
  revert ns. induction ls as [|l0 rest IH]; intros ns; [reflexivity|].
  cbn [outputs map]. f_equal. rewrite IH. apply map_ext. intros l.
  unfold switch. now destruct (Nat.eqb l l0).
Qed.

Lemma generate_each_run (self : NeuralNetworkTrainer) (z : tensor)
    (indices : list nat) (selected : list Individual)
    (generated_output : list tensor) (w : World) :
  Forall2 (fun i individual =>
             individuals (population_gen self) !! i = Some individual)
          indices selected ->
  generate_each self z indices generated_output w
  = (Return (generated_output ++ outputs z (nets w) (nets_of selected)),
     set_nets (switched (nets_of selected) (nets w)) w).
Proof.
  intros H. revert generated_output w.
  induction H as [|i individual indices selected Hi _ IH]; intros generated_output w.
  - cbn. now rewrite app_nil_r, set_nets_same.
  - cbn [generate_each]. unfold index. rewrite Hi.
    rewrite (bind_return _ _ w w individual) by reflexivity.
    rewrite eval_call_train. rewrite IH. cbn [nets set_nets nets_of map outputs switched].
    now rewrite <- app_assoc.
Qed.

Lemma first_indices {A} (xs : list A) (n : nat) :
  (n <= length xs)%nat ->
  Forall2 (fun i x => xs !! i = Some x) (seq 0 n) (take n xs).
Proof.
  induction n as [|n IH]; intros Hn; [constructor|].
  rewrite seq_S. cbn [plus].
  destruct (xs !! n) as [x|] eqn:Hx.
  - rewrite (take_S_r _ _ _ Hx). apply Forall2_app; [apply IH; lia|].
    constructor; [exact Hx | constructor].
  - apply lookup_ge_None in Hx. lia.
Qed.


Lemma outputs_count (z : tensor) (ns : loc -> Net) (ls : list loc) :
  fold_right Z.add 0 (map batch (outputs z ns ls)) = batch z * Z.of_nat (length ls).
Proof.
  rewrite outputs_map. induction ls as [|l rest IH]; [cbn; lia|].
  cbn [map fold_right length batch]. rewrite IH. lia.
Qed.

Lemma take_min_length {A} (xs : list A) (n : nat) :
  take (Nat.min (length xs) n) xs = take n xs.
Proof.
  destruct (Nat.le_ge_cases (length xs) n) as [H|H].
  - rewrite Nat.min_l by exact H. now rewrite !take_ge by lia.
  - now rewrite Nat.min_r by exact H.
Qed.

Lemma noise_batch (c : bool) (batch_size data_size n : Z) :
  batch (if c then UnsqueezeRepeat (noise batch_size data_size) n
         else noise batch_size data_size) = batch_size.
Proof. now destruct c. Qed.

Lemma save_real_run (c : M unit) (iteration : Z)
    (path_real : option string) (f : file) (w : World) :
  c = write_file (match path_real with Some p => p | None => "" end) f ->
  (if (iteration =? 0)%Z && truthy_path path_real then c else ret tt) w
  = (Return tt, set_files (real_images_saved iteration path_real f (files w)) w).
Proof.
  intros ->. unfold real_images_saved.
  destruct ((iteration =? 0)%Z && truthy_path path_real); [reflexivity|].
  cbn. now rewrite set_files_same.
Qed.

Lemma save_images_run (self : NeuralNetworkTrainer) (batch_size : Z)
    (input_var : InputBatch) (iteration : Z) (loader : Loader)
    (path_fake : string) (path_real : option string) (w : World) :
  (multiple_generators self loader = false ->
   individuals (population_gen self) <> []) ->
  (has_save_images (dataset loader) = true ->
   logging_get (print_discriminator (settings (cc self))) = true ->
   individuals (population_dis self) <> []) ->
  exists fake images,
    save_images self batch_size input_var iteration loader path_fake path_real w
    = (Return tt,
       set_files (<[path_fake := fake]>
                    (real_images_saved iteration path_real
                                       (real_file loader input_var) (files w)))
                 (set_nets (switched (nets_of (generators_run self loader)) (nets w)) w)) /\
    file_images fake = Some images /\
    image_count images
    = batch_size * Z.of_nat (length (generators_run self loader)).
Proof.
  intros Hgen Hdis. unfold save_images, generators_run, multiple_generators, real_file in *.
  destruct (has_save_images (dataset loader)) eqn:Hds; cbn [andb] in *.
  - erewrite bind_return by (apply save_real_run; reflexivity).
    set (z := if String.eqb _ _ then _ else _).
    assert (batch z = batch_size) as Hz by apply noise_batch.
    set (w1 := set_files _ w).
    assert (exists discr,
               forall go w2,
                 (let* discr :=
                    (if logging_get (print_discriminator (settings (cc self)))
                     then let* individual := index (individuals (population_dis self)) 0 in
                          ret (Some (genome individual))
                     else ret None) in
                  dataset_save_images go path_fake discr) w2
                 = (Return tt, set_files (<[path_fake := DatasetImages go discr]> (files w2)) w2))
      as [discr Hdiscr].
    { destruct (logging_get (print_discriminator (settings (cc self)))).
      - destruct (individuals (population_dis self)) as [|d0 ds] eqn:E.
        + now destruct (Hdis eq_refl eq_refl).
        + exists (Some (genome d0)). reflexivity.
      - exists None. reflexivity. }
    destruct (logging_get (print_multiple_generators (settings (cc self)))).
    + eexists _, _. split; [|split].
      * erewrite bind_return.
        2:{ erewrite bind_return; [reflexivity|].
            apply generate_each_run, first_indices. lia. }
        rewrite Hdiscr. rewrite take_min_length. reflexivity.
      * reflexivity.
      * cbn [image_count app]. rewrite outputs_count, Hz.
        unfold nets_of. now rewrite List.length_map.
    + destruct (individuals (population_gen self)) as [|g0 gs] eqn:E.
      { now destruct (Hgen eq_refl). }
      eexists _, _. split; [|split].
      * erewrite bind_return.
        2:{ unfold index. cbn [lookup list_lookup].
            erewrite bind_return by reflexivity. rewrite eval_call_train. reflexivity. }
        rewrite Hdiscr. reflexivity.
      * reflexivity.
      * cbn [image_count batch]. rewrite Hz.
        change (take 1 (g0 :: gs)) with [g0]. cbn [length]. lia.
  - erewrite bind_return by (apply save_real_run; reflexivity).
    destruct (individuals (population_gen self)) as [|g0 gs] eqn:E.
    { now destruct (Hgen eq_refl). }
    eexists _, _. split; [|split].
    + unfold index. cbn [lookup list_lookup].
      erewrite bind_return by reflexivity.
      unfold bind, net_eval, net_train, net_call, set_training, get_net, bind, ret,
        dataloader_save_images, write_file.
      cbn [nets set_nets set_files files]. rewrite switch_same. reflexivity.
    + reflexivity.
    + change (take 1 (g0 :: gs)) with [g0]. cbn [image_count batch noise length]. lia.
Qed.

Lemma uses_net_nets_of (population : list Individual) (l : loc) :
  existsb (Nat.eqb l) (nets_of population) = uses_net population l.
Proof.
  unfold uses_net, nets_of. induction population as [|a rest IH]; [reflexivity|].
  cbn [map existsb]. now rewrite IH.
Qed.

Lemma generated_output_cases (self : NeuralNetworkTrainer) (z : tensor) (w : World) :
  let multiple := logging_get (print_multiple_generators (settings (cc self))) in
  let c :=
    if multiple then
      let n := Nat.min (length (individuals (population_gen self))) 5 in
      let* outs := generate_each self z (seq 0 n) [] in
      ret (Many outs)
    else
      let* individual := index (individuals (population_gen self)) 0 in
      let gen := net (genome individual) in
      net_eval gen ;;;
      let* out := net_call gen z in
      net_train gen ;;;
      ret (One out) in
  (exists generated_output,
      c w = (Return generated_output,
             set_nets (switched
                         (nets_of (if multiple
                                   then take 5 (individuals (population_gen self))
                                   else take 1 (individuals (population_gen self))))
                         (nets w)) w)) \/
  c w = (Raise IndexError, w).
Proof.
  cbv zeta. destruct (logging_get (print_multiple_generators (settings (cc self)))).
  - left. eexists. erewrite bind_return; [reflexivity|].
    rewrite <- (take_min_length _ 5). apply generate_each_run, first_indices. lia.
  - destruct (individuals (population_gen self)) as [|g0 gs]; [now right|].
    left. eexists. unfold index. cbn [lookup list_lookup].
    erewrite bind_return by reflexivity. rewrite eval_call_train. reflexivity.
Qed.

Lemma save_images_nets (self : NeuralNetworkTrainer) (batch_size : Z)
    (input_var : InputBatch) (iteration : Z) (loader : Loader)
    (path_fake : string) (path_real : option string) (w w' : World) :
  save_images self batch_size input_var iteration loader path_fake path_real w
  = (Return tt, w') ->
  nets w' = switched (nets_of (generators_run self loader)) (nets w).
Proof.
  unfold save_images, generators_run, multiple_generators.
  destruct (has_save_images (dataset loader)); cbn [andb]; intros H.
  - erewrite bind_return in H by (apply save_real_run; reflexivity).
    match type of H with
    | bind _ _ ?w1 = _ =>
        match type of H with
        | context [generate_each self ?z _ _] =>
            destruct (generated_output_cases self z w1) as [[go Hgo] | Hraise]
        end
    end.
    + erewrite bind_return in H by exact Hgo.
      destruct (logging_get (print_discriminator (settings (cc self)))).
      * destruct (individuals (population_dis self)) as [|d0 ds];
          [discriminate H|]. now injection H as <-.
      * now injection H as <-.
    + erewrite bind_raise in H by exact Hraise. discriminate H.
  - erewrite bind_return in H by (apply save_real_run; reflexivity).
    destruct (individuals (population_gen self)) as [|g0 gs]; [discriminate H|].
    unfold index in H. cbn [lookup list_lookup] in H.
    erewrite bind_return in H by reflexivity.
    unfold bind, net_eval, net_train, net_call, set_training, get_net, bind, ret,
      dataloader_save_images, write_file in H.
    cbn [nets set_nets set_files files] in H. now injection H as <-.
Qed.

(* ===================================================================== *)
(** ** log_results *)
(* ===================================================================== *)

Lemma log_results_run (self : NeuralNetworkTrainer) (batch_size iteration : Z)
    (input_var : InputBatch) (loader : Loader) (kwargs : list (string * atom))
    (w : World) (generator0 discriminator0 : Individual) :
  individuals (population_gen self) !! 0%nat = Some generator0 ->
  individuals (population_dis self) !! 0%nat = Some discriminator0 ->
  let image_format := image_format (settings (cc self)) in
  let path_real := path_join (output_dir (cc self)) ("real_images." +:+ image_format) in
  let path_fake :=
    path_join (output_dir (cc self))
              ("fake_images-" +:+ py_str (AInt (iteration + 1)) +:+ "." +:+ image_format) in
  exists w' fake images,
    log_results self batch_size iteration input_var loader kwargs w
    = (Return (path_real, path_fake), w') /\
    files w' = <[path_fake := fake]>
                 (real_images_saved iteration (Some path_real)
                                    (real_file loader input_var) (files w)) /\
    nets w' = switched (nets_of (generators_run self loader)) (nets w) /\
    log w' = log w ++ [log_line iteration (fitness generator0) (fitness discriminator0)
                                (kwargs_suffix kwargs)] /\
    clock w' = clock w /\
    file_images fake = Some images /\
    image_count images
    = images_batch_size (sample_count (settings (cc self))) batch_size
      * Z.of_nat (length (generators_run self loader)).
Proof.
  intros Hg Hd image_format path_real path_fake.
  unfold log_results, index. rewrite Hg, Hd.
  do 3 (erewrite bind_return by reflexivity).
  match goal with
  | |- context [bind (save_images _ ?b _ _ _ ?pf ?pr) _ ?w1] =>
      destruct (save_images_run self b input_var iteration loader pf pr w1)
        as (fake & images & Hrun & Himages & Hcount)
  end.
  { intros _ E. rewrite E in Hg. discriminate Hg. }
  { intros _ _ E. rewrite E in Hd. discriminate Hd. }
  exists
    (set_files (<[path_fake := fake]>
                  (real_images_saved iteration (Some path_real)
                                     (real_file loader input_var) (files w)))
       (set_nets (switched (nets_of (generators_run self loader)) (nets w))
          {| files := files w; nets := nets w;
             log := log w ++ [log_line iteration (fitness generator0)
                                       (fitness discriminator0) (kwargs_suffix kwargs)];
             clock := clock w |})),
    fake, images.
  split; [|repeat split; assumption].
  erewrite bind_return by exact Hrun. reflexivity.
Qed.

Lemma path_join_nonempty (a b : string) : b <> "" -> path_join a b <> "".
Proof.
  intros Hb. unfold path_join. destruct (starts_with_sep b); [exact Hb|].
  destruct (String.eqb a "" || ends_with_sep a); intros E;
    apply (f_equal String.length) in E; rewrite !string_app_length in E;
    destruct b; [congruence | cbn in E; lia | congruence | cbn in E; lia].
Qed.

Lemma real_path_not_fake (od image_format : string) (n : Z) :
  path_join od ("real_images." +:+ image_format)
  <> path_join od ("fake_images-" +:+ py_str (AInt n) +:+ "." +:+ image_format).
Proof.
  intros E. apply path_join_inj in E; [|reflexivity|reflexivity]. discriminate E.
Qed.

(** C6, as amended.  On a trainer whose two populations are not empty, a
    call with iteration [i] logs one line with the iteration number [i + 1],
    the fitness of the first generator and of the first discriminator and
    the keyword arguments; it saves the generated images under
    'fake_images-<i+1>.<image_format>' (and the real images under
    'real_images.<image_format>' when [i] is 0), both in the output
    directory, and returns these two paths. *)
Theorem log_results_logs_and_saves (self : NeuralNetworkTrainer)
    (batch_size i : Z) (input_var : InputBatch) (loader : Loader)
    (kwargs : list (string * atom)) (w : World)
    (generator0 discriminator0 : Individual) :
  individuals (population_gen self) !! 0%nat = Some generator0 ->
  individuals (population_dis self) !! 0%nat = Some discriminator0 ->
  let image_format := image_format (settings (cc self)) in
  let path_real := path_join (output_dir (cc self)) ("real_images." +:+ image_format) in
  let path_fake :=
    path_join (output_dir (cc self))
              ("fake_images-" +:+ pretty (i + 1) +:+ "." +:+ image_format) in
  exists w' fake images,
    log_results self batch_size i input_var loader kwargs w
    = (Return (path_real, path_fake), w') /\
    log w' = log w ++
               ["Iteration=" +:+ pretty (i + 1) +:+
                ", f(Generator(x))=" +:+ float_repr (fitness generator0) +:+
                ", f(Discriminator(x))=" +:+ float_repr (fitness discriminator0) +:+
                kwargs_suffix kwargs] /\
    files w' !! path_fake = Some fake /\
    file_images fake = Some images /\
    (i = 0 -> files w' !! path_real = Some (real_file loader input_var)).
Proof.
  intros Hg Hd. cbv zeta.
  destruct (log_results_run self batch_size i input_var loader kwargs w _ _ Hg Hd)
    as (w' & fake & images & Hrun & Hfiles & _ & Hlog & _ & Himages & _).
  exists w', fake, images. split; [exact Hrun|]. split; [exact Hlog|].
  split; [|split; [exact Himages|]].
  - rewrite Hfiles. apply lookup_insert_eq.
  - intros ->. rewrite Hfiles.
    rewrite lookup_insert_ne by (intros E; symmetry in E; revert E; apply real_path_not_fake).
    unfold real_images_saved, truthy_path.
    assert ((path_join (output_dir (cc self))
                       ("real_images." +:+ image_format (settings (cc self))) =? "")%string
            = false) as ->
        by (apply String.eqb_neq, path_join_nonempty; discriminate).
    apply lookup_insert_eq.
Qed.

Lemma log_results_logs_and_saves_witness :
  exists w' fake images,
    log_results demo_trainer 200 0 demo_input demo_loader
                [("duration", AFloat (Float "1.25"))] demo_world
    = (Return (path_join "out" ("real_images." +:+ "jpg"),
               path_join "out" ("fake_images-" +:+ pretty (0 + 1) +:+ "." +:+ "jpg")), w') /\
    log w' = [] ++
               ["Iteration=" +:+ pretty (0 + 1) +:+
                ", f(Generator(x))=" +:+ "0.6931" +:+
                ", f(Discriminator(x))=" +:+ "1.3863" +:+
                kwargs_suffix [("duration", AFloat (Float "1.25"))]] /\
    files w' !! path_join "out" ("fake_images-" +:+ pretty (0 + 1) +:+ "." +:+ "jpg")
    = Some fake /\
    file_images fake = Some images /\
    (0 = 0 -> files w' !! path_join "out" ("real_images." +:+ "jpg")
              = Some (real_file demo_loader demo_input)).
Proof.
  apply (log_results_logs_and_saves demo_trainer 200 0 demo_input demo_loader
           [("duration", AFloat (Float "1.25"))] demo_world
           demo_local demo_discriminator); reflexivity.
Defined.

(** C6 as stated fails when the generator population is empty: the call
    raises IndexError; nothing is logged, no image is saved, no pair of
    paths is returned. *)
Lemma log_results_logs_and_saves_counterexample :
  log_results demo_trainer_empty 200 0 demo_input demo_loader [] demo_world
  = (Raise IndexError, demo_world).
Proof. reflexivity. Qed.

(** C8, as amended.  When a call to [log_results] returns, the file of
    generated images holds, for each generator that was run, as many images
    as the batch size handed to [save_images]: min(batch_size, 128) when
    'sample_count' is absent or 0, the configured sample_count otherwise.
    One generator is run, unless [print_multiple_generators] is set and the
    dataset has its own [save_images]: then the first five generators at
    most are run, and the images are as many times more. *)
Theorem log_results_image_count (self : NeuralNetworkTrainer)
    (batch_size i : Z) (input_var : InputBatch) (loader : Loader)
    (kwargs : list (string * atom)) (w w' : World) (paths : string * string) :
  log_results self batch_size i input_var loader kwargs w = (Return paths, w') ->
  let sample_count := sample_count (settings (cc self)) in
  let generators := individuals (population_gen self) in
  exists fake images per_generator,
    files w' !! snd paths = Some fake /\
    file_images fake = Some images /\
    image_count images
    = per_generator * Z.of_nat (length (generators_run self loader)) /\
    (sample_count = None \/ sample_count = Some 0 ->
     per_generator = Z.min batch_size 128) /\
    (forall n, sample_count = Some n -> n <> 0 -> per_generator = n) /\
    (multiple_generators self loader = false ->
     length (generators_run self loader) = 1%nat) /\
    (multiple_generators self loader = true ->
     length (generators_run self loader) = Nat.min 5 (length generators)).
Proof.
  intros Hrun sample_count generators.
  destruct (individuals (population_gen self) !! 0%nat) as [g0|] eqn:Hg.
  2:{ unfold log_results, index in Hrun. rewrite Hg in Hrun.
      erewrite bind_raise in Hrun by reflexivity. discriminate Hrun. }
  destruct (individuals (population_dis self) !! 0%nat) as [d0|] eqn:Hd.
  2:{ unfold log_results, index in Hrun. rewrite Hg, Hd in Hrun.
      erewrite bind_return in Hrun by reflexivity.
      erewrite bind_raise in Hrun by reflexivity. discriminate Hrun. }
  destruct (log_results_run self batch_size i input_var loader kwargs w _ _ Hg Hd)
    as (w1 & fake & images & Hrun1 & Hfiles & _ & _ & _ & Himages & Hcount).
  rewrite Hrun in Hrun1. injection Hrun1 as -> <-.
  exists fake, images, (images_batch_size sample_count batch_size).
  split; [rewrite Hfiles; apply lookup_insert_eq|].
  split; [exact Himages|]. split; [exact Hcount|].
  split; [|split; [|split]].
  - intros [-> | ->]; reflexivity.
  - intros n -> Hn. cbn. now apply Z.eqb_neq in Hn as ->.
  - unfold generators_run. intros ->.
    destruct (individuals (population_gen self)); [discriminate Hg | reflexivity].
  - unfold generators_run. intros ->. apply length_take.
Qed.

Lemma log_results_image_count_witness :
  exists fake images per_generator,
    files (snd (log_results demo_trainer 200 0 demo_input demo_loader [] demo_world))
      !! "out/fake_images-1.jpg" = Some fake /\
    file_images fake = Some images /\
    image_count images
    = per_generator * Z.of_nat (length (generators_run demo_trainer demo_loader)) /\
    (sample_count demo_settings = None \/ sample_count demo_settings = Some 0 ->
     per_generator = Z.min 200 128) /\
    (forall n, sample_count demo_settings = Some n -> n <> 0 -> per_generator = n) /\
    (multiple_generators demo_trainer demo_loader = false ->
     length (generators_run demo_trainer demo_loader) = 1%nat) /\
    (multiple_generators demo_trainer demo_loader = true ->
     length (generators_run demo_trainer demo_loader) = Nat.min 5 2).
Proof.
  apply (log_results_image_count demo_trainer 200 0 demo_input demo_loader []
           demo_world _ ("out/real_images.jpg", "out/fake_images-1.jpg")).
  reflexivity.
Defined.

(** C8 as stated fails: with [print_multiple_generators], two generators, a
    batch size of 200 and no 'sample_count', 256 images are generated and
    saved, not min(200, 128) = 128. *)
Lemma log_results_image_count_counterexample :
  let run := log_results demo_trainer_multiple 200 0 demo_input demo_dataset_loader
                         [] demo_world in
  fst run = Return ("out/real_images.jpg", "out/fake_images-1.jpg") /\
  sample_count (settings (cc demo_trainer_multiple)) = None /\
  option_map image_count
             (files (snd run) !! "out/fake_images-1.jpg" ≫= file_images) = Some 256 /\
  Z.min 200 128 = 128.
Proof. repeat split; vm_compute; reflexivity. Qed.

(** C9, as amended.  A complete call to [save_images] leaves in training
    mode every generator it has run (it switched each to evaluation mode and
    back), whatever its mode was before; the weights and the flag of every
    other network are as before.  So the flag of a generator is unchanged
    when it was in training mode before the call or was not run, and a run
    generator that was in evaluation mode ends in training mode. *)
Theorem save_images_training_flags (self : NeuralNetworkTrainer) (batch_size : Z)
    (input_var : InputBatch) (iteration : Z) (loader : Loader)
    (path_fake : string) (path_real : option string) (w w' : World) :
  save_images self batch_size input_var iteration loader path_fake path_real w
  = (Return tt, w') ->
  forall l,
    weights (nets w' l) = weights (nets w l) /\
    training (nets w' l)
    = uses_net (generators_run self loader) l || training (nets w l) /\
    (uses_net (generators_run self loader) l = true -> training (nets w' l) = true) /\
    (uses_net (generators_run self loader) l = false -> nets w' l = nets w l) /\
    (training (nets w l) = true -> training (nets w' l) = training (nets w l)).
Proof.
  intros Hrun l. apply save_images_nets in Hrun. rewrite Hrun.
  pose proof (switched_weights (nets_of (generators_run self loader)) (nets w) l) as Hw.
  pose proof (switched_training (nets_of (generators_run self loader)) (nets w) l) as Ht.
  rewrite uses_net_nets_of in Ht.
  split; [exact Hw|]. split; [exact Ht|]. split; [|split].
  - intros E. now rewrite Ht, E.
  - intros E. rewrite E in Ht. cbn in Ht.
    destruct (switched _ _ l), (nets w l). cbn in *. congruence.
  - intros E. rewrite Ht, E. apply orb_true_r.
Qed.

Lemma save_images_training_flags_witness :
  let l := net (genome demo_local) in
  let w' := snd (save_images demo_trainer 128 demo_input 3 demo_loader
                             "out/fake_images-4.jpg" (Some "out/real_images.jpg")
                             demo_world) in
  weights (nets w' l) = weights (nets demo_world l) /\
  training (nets w' l)
  = uses_net (generators_run demo_trainer demo_loader) l || training (nets demo_world l) /\
  (uses_net (generators_run demo_trainer demo_loader) l = true ->
   training (nets w' l) = true) /\
  (uses_net (generators_run demo_trainer demo_loader) l = false ->
   nets w' l = nets demo_world l) /\
  (training (nets demo_world l) = true ->
   training (nets w' l) = training (nets demo_world l)).
Proof.
  apply (save_images_training_flags demo_trainer 128 demo_input 3 demo_loader
           "out/fake_images-4.jpg" (Some "out/real_images.jpg") demo_world).
  reflexivity.
Defined.

(** C9 as stated fails: a generator that is in evaluation mode when
    [save_images] is called is in training mode when it returns. *)
Lemma save_images_training_flags_counterexample :
  let run := save_images demo_trainer 128 demo_input 3 demo_loader
                         "out/fake_images-4.jpg" (Some "out/real_images.jpg")
                         demo_world_eval in
  fst run = Return tt /\
  training (nets demo_world_eval (net (genome demo_local))) = false /\
  training (nets (snd run) (net (genome demo_local))) = true.
Proof. repeat split. Qed.

(* ===================================================================== *)
(** ** More about save_checkpoint *)
(* ===================================================================== *)

(** What the loop over a population does to one path does not depend on
    what the file system held: either it leaves there the weights of some
    individual, or it leaves the path alone. *)
Lemma weight_files_cases (self : NeuralNetworkTrainer) (prefix : string) (c : Z)
    (ns : loc -> Net) (individuals : list Individual) (j : Z) (p : string) :
  (exists sd, forall fs,
      weight_files self prefix c ns individuals j fs !! p = Some (PickleFile sd)) \/
  (forall fs, weight_files self prefix c ns individuals j fs !! p = fs !! p).
Proof.
  revert j. induction individuals as [|a rest IH]; intros j; [now right|].
  cbn [weight_files]. destruct (is_local a); [|apply IH].
  destruct (IH (j + 1)) as [[sd Hsd] | Hsame].
  - left. exists sd. intros fs. apply Hsd.
  - destruct (decide (weights_path self prefix c j = p)) as [<- | Hne].
    + left. eexists. intros fs. rewrite Hsame. apply lookup_insert_eq.
    + right. intros fs. rewrite Hsame. now apply lookup_insert_ne.
Qed.

Lemma files_after_populations_cases (self : NeuralNetworkTrainer)
    (generators discriminators : list Individual) (c : Z) (ns : loc -> Net)
    (clk : string) (lg : list string) (p : string) :
  (exists sd, forall fs,
      files_after_populations self generators discriminators c
        {| files := fs; nets := ns; log := lg; clock := clk |} !! p
      = Some (PickleFile sd)) \/
  (forall fs,
      files_after_populations self generators discriminators c
        {| files := fs; nets := ns; log := lg; clock := clk |} !! p = fs !! p).
Proof.
  unfold files_after_populations. cbn [nets files].
  destruct (weight_files_cases self DISCRIMINATOR_PREFIX c ns discriminators 0 p)
    as [[sd Hsd] | Hd].
  - left. exists sd. intros fs. apply Hsd.
  - destruct (weight_files_cases self GENERATOR_PREFIX c ns generators 0 p)
      as [[sd Hsd] | Hg].
    + left. exists sd. intros fs. rewrite Hd. apply Hsd.
    + right. intros fs. rewrite Hd. apply Hg.
Qed.

Lemma save_checkpoint_world (self : NeuralNetworkTrainer)
    (generators discriminators : list Individual)
    (c : Z) (grid_position : Z * Z) (grid_size : Z) (w : World) :
  snd (save_checkpoint self generators discriminators c grid_position grid_size w)
  = set_files
      (files (snd (save_checkpoint self generators discriminators c
                                   grid_position grid_size w))) w.
Proof.
  destruct generators as [|g0 gens].
  - now rewrite save_checkpoint_empty.
  - now rewrite save_checkpoint_run.
Qed.

(** X1. Saving a checkpoint leaves the networks as they are (their weights
    and their training flags), logs nothing and does not touch the clock,
    whether it succeeds or raises. *)
Theorem save_checkpoint_keeps_networks (self : NeuralNetworkTrainer)
    (generators discriminators : list Individual)
    (cell_number : Z) (grid_position : Z * Z) (grid_size : Z) (w : World) :
  let w' := snd (save_checkpoint self generators discriminators cell_number
                                 grid_position grid_size w) in
  nets w' = nets w /\ log w' = log w /\ clock w' = clock w.
Proof.
  cbv zeta. rewrite save_checkpoint_world. now cbn.
Qed.

(** X2. Saving a checkpoint never removes a file: every path that held a
    file before the call holds one after it, whether the call succeeds or
    raises. *)
Theorem save_checkpoint_never_deletes (self : NeuralNetworkTrainer)
    (generators discriminators : list Individual)
    (cell_number : Z) (grid_position : Z * Z) (grid_size : Z) (w : World)
    (p : string) :
  is_Some (files w !! p) ->
  is_Some (files (snd (save_checkpoint self generators discriminators cell_number
                                       grid_position grid_size w)) !! p).
Proof.
  intros Hp.
  assert (is_Some (files_after_populations self generators discriminators
                                           cell_number w !! p)) as Hafter.
  { destruct w as [fs ns lg clk].
    destruct (files_after_populations_cases self generators discriminators
                cell_number ns clk lg p) as [[sd Hsd] | Hsame].
    - rewrite Hsd. eauto.
    - rewrite Hsame. exact Hp. }
  destruct generators as [|g0 gens].
  - rewrite save_checkpoint_empty. exact Hafter.
  - rewrite save_checkpoint_run. cbn [snd files set_files].
    destruct (decide (checkpoint_path self cell_number = p)) as [<- | Hne].
    + rewrite lookup_insert_eq. eauto.
    + now rewrite lookup_insert_ne.
Qed.

Lemma save_checkpoint_never_deletes_witness :
  is_Some
    (files (snd (save_checkpoint demo_trainer [demo_local] [] 4 (1, 2) 9
                   (set_files {["out/notes.txt" := PickleFile []]} demo_world)))
       !! "out/notes.txt").
Proof.
  apply save_checkpoint_never_deletes. cbn. rewrite lookup_singleton_eq. eauto.
Defined.

(** X3. A cell with generators but no discriminator is checkpointed all the
    same: the call returns, the checkpoint holds an empty dict under
    'discriminators' (no 'individuals', no 'learning_rate'), and no
    discriminator weight file is written. *)
Theorem save_checkpoint_no_discriminators (self : NeuralNetworkTrainer)
    (generators : list Individual)
    (cell_number : Z) (grid_position : Z * Z) (grid_size : Z) (w : World) :
  generators <> [] ->
  exists w' doc,
    save_checkpoint self generators [] cell_number grid_position grid_size w
    = (Return tt, w') /\
    files w' !! checkpoint_path self cell_number = Some (YamlFile (PDict doc)) /\
    dict_get "discriminators" doc = Some (PDict []) /\
    forall j, files w' !! weights_path self DISCRIMINATOR_PREFIX cell_number j
              = files w !! weights_path self DISCRIMINATOR_PREFIX cell_number j.
Proof.
  intros Hg. destruct generators as [|g0 gens]; [congruence|].
  eexists _, _. split; [apply save_checkpoint_run|].
  split; [apply lookup_insert_eq|]. split; [reflexivity|].
  intros j. cbn [files set_files].
  rewrite lookup_insert_ne
    by (intros E; symmetry in E; revert E; apply checkpoint_path_not_weights; now right).
  unfold files_after_populations.
  match goal with
  | |- context [weight_files _ DISCRIMINATOR_PREFIX _ _ [] _ ?fs] =>
      change (weight_files self DISCRIMINATOR_PREFIX cell_number (nets w) [] 0 fs) with fs
  end.
  apply weight_files_other. intros j' _ E. symmetry in E. revert E.
  apply weights_path_roles.
Qed.

Lemma save_checkpoint_no_discriminators_witness :
  exists w' doc,
    save_checkpoint demo_trainer [demo_local; demo_remote] [] 4 (1, 2) 9 demo_world
    = (Return tt, w') /\
    files w' !! checkpoint_path demo_trainer 4 = Some (YamlFile (PDict doc)) /\
    dict_get "discriminators" doc = Some (PDict []) /\
    forall j, files w' !! weights_path demo_trainer DISCRIMINATOR_PREFIX 4 j
              = files demo_world !! weights_path demo_trainer DISCRIMINATOR_PREFIX 4 j.
Proof. apply save_checkpoint_no_discriminators. discriminate. Defined.

Lemma local_rank_cons (a : Individual) (rest : list Individual) (k : nat) :
  local_rank (a :: rest) (S k)
  = (if is_local a then 1 else 0) + local_rank rest k.
Proof.
  unfold local_rank. cbn [take List.filter]. destruct (is_local a); cbn [length]; lia.
Qed.

Lemma local_count_cons (a : Individual) (rest : list Individual) :
  local_count (a :: rest) = (if is_local a then 1 else 0) + local_count rest.
Proof.
  unfold local_count. cbn [List.filter]. destruct (is_local a); cbn [length]; lia.
Qed.

(** Every number below the count of local individuals is the rank of one. *)
Lemma local_rank_onto (individuals : list Individual) (j : Z) :
  0 <= j < local_count individuals ->
  exists k individual,
    individuals !! k = Some individual /\ is_local individual = true /\
    local_rank individuals k = j.
Proof.
  revert j. induction individuals as [|a rest IH]; intros j Hj.
  - unfold local_count in Hj. cbn in Hj. lia.
  - rewrite local_count_cons in Hj. destruct (is_local a) eqn:Ha.
    + destruct (decide (j = 0)) as [-> | Hne].
      * exists 0%nat, a. repeat split. exact Ha.
      * destruct (IH (j - 1)) as (k & ind & Hk & Hloc & Hrank); [lia|].
        exists (S k), ind. repeat split; [exact Hk | exact Hloc |].
        rewrite local_rank_cons, Ha. lia.
    + destruct (IH j) as (k & ind & Hk & Hloc & Hrank); [lia|].
      exists (S k), ind. repeat split; [exact Hk | exact Hloc |].
      rewrite local_rank_cons, Ha. lia.
Qed.

(** The rank of a local individual is below the count of local individuals. *)
Lemma local_rank_below (individuals : list Individual) (k : nat)
    (individual : Individual) :
  individuals !! k = Some individual -> is_local individual = true ->
  0 <= local_rank individuals k < local_count individuals.
Proof.
  revert k. induction individuals as [|a rest IH]; intros k Hk Hloc; [discriminate Hk|].
  destruct k as [|k].
  - injection Hk as ->. rewrite local_count_cons, Hloc.
    unfold local_rank, local_count. cbn. lia.
  - cbn in Hk. specialize (IH k Hk Hloc).
    rewrite local_rank_cons, local_count_cons. destruct (is_local a); lia.
Qed.

(** X4. The weight files of a population are numbered without gaps: with
    [n] local individuals, the files numbered 0 to [n - 1] are written, each
    holding the weights of a local individual, and no file with another
    number is touched. *)
Theorem weight_files_numbering (self : NeuralNetworkTrainer)
    (individuals : list Individual) (prefix : string) (cell_number : Z) (w : World) :
  plain_prefix prefix ->
  exists info w',
    get_individuals_information self individuals prefix cell_number w = (Return info, w') /\
    (forall j, 0 <= j < local_count individuals ->
               exists individual,
                 In individual individuals /\ is_local individual = true /\
                 files w' !! weights_path self prefix cell_number j
                 = Some (PickleFile (weights (nets w (net (genome individual)))))) /\
    (forall j, ~ 0 <= j < local_count individuals ->
               files w' !! weights_path self prefix cell_number j
               = files w !! weights_path self prefix cell_number j).
Proof.
  intros Hplain. eexists _, _. split; [apply get_individuals_information_run|].
  cbn [files set_files]. split.
  - intros j Hj. destruct (local_rank_onto individuals j Hj) as (k & ind & Hk & Hloc & <-).
    exists ind. split; [|split; [exact Hloc|]].
    + apply list_elem_of_In. eapply list_elem_of_lookup_2, Hk.
    + now apply (weight_files_local self prefix cell_number (nets w) Hplain
                   individuals 0 (files w) k ind).
  - intros j Hj. apply weight_files_untouched. intros k ind Hk Hloc E.
    apply weights_path_inj in E; [|exact Hplain].
    apply Hj. rewrite E. cbn [Z.add]. now apply (local_rank_below individuals k ind).
Qed.

Lemma weight_files_numbering_witness :
  exists info w',
    get_individuals_information demo_trainer [demo_remote; demo_local]
                                GENERATOR_PREFIX 4 demo_world = (Return info, w') /\
    (forall j, 0 <= j < local_count [demo_remote; demo_local] ->
               exists individual,
                 In individual [demo_remote; demo_local] /\ is_local individual = true /\
                 files w' !! weights_path demo_trainer GENERATOR_PREFIX 4 j
                 = Some (PickleFile (weights (nets demo_world (net (genome individual)))))) /\
    (forall j, ~ 0 <= j < local_count [demo_remote; demo_local] ->
               files w' !! weights_path demo_trainer GENERATOR_PREFIX 4 j
               = files demo_world !! weights_path demo_trainer GENERATOR_PREFIX 4 j).
Proof. apply weight_files_numbering. reflexivity. Defined.

Lemma checkpoint_path_inj (self : NeuralNetworkTrainer) (c c' : Z) :
  checkpoint_path self c = checkpoint_path self c' -> c = c'.
Proof.
  unfold checkpoint_path, checkpoint_filename. intros E.
  apply path_join_inj in E; [|reflexivity|reflexivity].
  apply (inj (String.app _)) in E. apply string_app_inv_tail in E.
  now apply (inj pretty) in E.
Qed.

(** X5. Cells that share an output directory keep their checkpoints apart:
    different cell numbers give different checkpoint files, and saving the
    checkpoint of one cell leaves the checkpoint file of every other cell
    as it was. *)
Theorem save_checkpoint_other_cell (self : NeuralNetworkTrainer)
    (generators discriminators : list Individual)
    (cell_number other : Z) (grid_position : Z * Z) (grid_size : Z) (w : World) :
  other <> cell_number ->
  checkpoint_path self other <> checkpoint_path self cell_number /\
  files (snd (save_checkpoint self generators discriminators cell_number
                              grid_position grid_size w))
    !! checkpoint_path self other
  = files w !! checkpoint_path self other.
Proof.
  intros Hne.
  assert (checkpoint_path self other <> checkpoint_path self cell_number) as Hp
      by (intros E; now apply checkpoint_path_inj in E).
  split; [exact Hp|].
  rewrite save_checkpoint_files_other by exact Hp.
  unfold files_after_populations.
  rewrite !weight_files_other; [reflexivity | |];
    intros j' _ E; symmetry in E; revert E; apply checkpoint_path_not_weights; auto.
Qed.

Lemma save_checkpoint_other_cell_witness :
  checkpoint_path demo_trainer 5 <> checkpoint_path demo_trainer 4 /\
  files (snd (save_checkpoint demo_trainer [demo_local; demo_remote]
                              [demo_discriminator] 4 (1, 2) 9 demo_world))
    !! checkpoint_path demo_trainer 5
  = files demo_world !! checkpoint_path demo_trainer 5.
Proof. apply save_checkpoint_other_cell. discriminate. Defined.

(** X6. Saving the same checkpoint again overwrites the first one and adds
    nothing: after a second call with the same arguments, at time [t], the
    outcome and every file are what a single call at time [t] gives. *)
Theorem save_checkpoint_again (self : NeuralNetworkTrainer)
    (generators discriminators : list Individual)
    (cell_number : Z) (grid_position : Z * Z) (grid_size : Z) (w : World)
    (t : string) :
  save_checkpoint self generators discriminators cell_number grid_position grid_size
    (set_clock t (snd (save_checkpoint self generators discriminators cell_number
                                       grid_position grid_size w)))
  = save_checkpoint self generators discriminators cell_number grid_position grid_size
      (set_clock t w).
Proof.
  destruct w as [fs ns lg clk]. destruct generators as [|g0 gens].
  - rewrite !save_checkpoint_empty.
    unfold set_files, set_clock. cbn [snd files nets log clock].
    do 2 f_equal. apply map_eq. intros p.
    destruct (weight_files_cases self DISCRIMINATOR_PREFIX cell_number ns
                discriminators 0 p) as [[sd Hd] | Hd]; now rewrite !Hd.
  - rewrite !save_checkpoint_run.
    unfold files_after_populations, set_files, set_clock.
    cbn [snd files nets log clock].
    do 2 f_equal. apply map_eq. intros p.
    destruct (decide (checkpoint_path self cell_number = p)) as [<- | Hne].
    { now rewrite !lookup_insert_eq. }
    rewrite !(lookup_insert_ne _ _ _ _ Hne).
    destruct (weight_files_cases self DISCRIMINATOR_PREFIX cell_number ns
                discriminators 0 p) as [[sd Hd] | Hd]; [now rewrite !Hd|].
    rewrite !Hd.
    destruct (weight_files_cases self GENERATOR_PREFIX cell_number ns
                (g0 :: gens) 0 p) as [[sd Hg] | Hg]; [now rewrite !Hg|].
    rewrite Hg, (lookup_insert_ne _ _ _ _ Hne), Hd. reflexivity.
Qed.

(** X7. A checkpoint has exactly seven entries, written in this order:
    time, generators, discriminators, id, iteration, position, grid_size;
    'time' is the time of the call and 'position' has exactly 'x' and 'y'. *)
Theorem save_checkpoint_keys (self : NeuralNetworkTrainer)
    (generators discriminators : list Individual)
    (cell_number : Z) (grid_position : Z * Z) (grid_size : Z) (w : World) :
  generators <> [] ->
  exists w' doc position,
    save_checkpoint self generators discriminators cell_number grid_position grid_size w
    = (Return tt, w') /\
    files w' !! checkpoint_path self cell_number = Some (YamlFile (PDict doc)) /\
    dict_keys doc = ["time"; "generators"; "discriminators"; "id"; "iteration";
                     "position"; "grid_size"] /\
    dict_get "time" doc = Some (PAtom (AStr (clock w))) /\
    dict_get "position" doc = Some (PDict position) /\
    dict_keys position = ["x"; "y"].
Proof.
  intros Hg. destruct generators as [|g0 gens]; [congruence|].
  eexists _, _, _. split; [apply save_checkpoint_run|].
  split; [apply lookup_insert_eq|]. repeat split.
Qed.

Lemma save_checkpoint_keys_witness :
  exists w' doc position,
    save_checkpoint demo_trainer [demo_local] [demo_discriminator] 4 (1, 2) 9 demo_world
    = (Return tt, w') /\
    files w' !! checkpoint_path demo_trainer 4 = Some (YamlFile (PDict doc)) /\
    dict_keys doc = ["time"; "generators"; "discriminators"; "id"; "iteration";
                     "position"; "grid_size"] /\
    dict_get "time" doc = Some (PAtom (AStr (clock demo_world))) /\
    dict_get "position" doc = Some (PDict position) /\
    dict_keys position = ["x"; "y"].
Proof. apply save_checkpoint_keys. discriminate. Defined.

(* ===================================================================== *)
(** ** More about save_images *)
(* ===================================================================== *)

Lemma save_images_needs (self : NeuralNetworkTrainer) (loader : Loader) :
  (lacks_generator self loader \/ lacks_discriminator self loader) \/
  ((multiple_generators self loader = false ->
    individuals (population_gen self) <> []) /\
   (has_save_images (dataset loader) = true ->
    logging_get (print_discriminator (settings (cc self))) = true ->
    individuals (population_dis self) <> [])).
Proof.
  unfold lacks_generator, lacks_discriminator.
  destruct (multiple_generators self loader) eqn:Hm;
    destruct (individuals (population_gen self)) as [|g0 gs];
    destruct (has_save_images (dataset loader));
    destruct (logging_get (print_discriminator (settings (cc self))));
    destruct (individuals (population_dis self)) as [|d0 ds];
    try (left; left; split; reflexivity);
    try (left; right; repeat split; reflexivity);
    right; split; intros; congruence.
Qed.

Lemma save_images_raises (self : NeuralNetworkTrainer) (batch_size : Z)
    (input_var : InputBatch) (iteration : Z) (loader : Loader)
    (path_fake : string) (path_real : option string) (w : World) :
  lacks_generator self loader \/ lacks_discriminator self loader ->
  fst (save_images self batch_size input_var iteration loader path_fake path_real w)
  = Raise IndexError.
Proof.
  unfold lacks_generator, lacks_discriminator, multiple_generators, save_images.
  intros [[Hm Eg] | (Hds & Hpd & Ed)].
  - destruct (has_save_images (dataset loader)); cbn [andb] in Hm.
    + erewrite bind_return by (apply save_real_run; reflexivity).
      rewrite Hm, Eg. unfold index. cbn [lookup list_lookup].
      erewrite bind_raise; [reflexivity|]. erewrite bind_raise; reflexivity.
    + erewrite bind_return by (apply save_real_run; reflexivity).
      rewrite Eg. unfold index. cbn [lookup list_lookup].
      erewrite bind_raise; reflexivity.
  - rewrite Hds. erewrite bind_return by (apply save_real_run; reflexivity).
    match goal with
    | |- context [bind _ _ ?w1] =>
        match goal with
        | |- context [generate_each self ?z _ _] =>
            destruct (generated_output_cases self z w1) as [[go Hgo] | Hraise]
        end
    end.
    + erewrite bind_return by exact Hgo. rewrite Hpd, Ed.
      unfold index. cbn [lookup list_lookup].
      erewrite bind_raise; [reflexivity|]. erewrite bind_raise; reflexivity.
    + erewrite bind_raise by exact Hraise. reflexivity.
Qed.

(** X8. [save_images] raises IndexError in exactly two situations: it is to
    run the first generator (no [print_multiple_generators] on a dataset
    with its own [save_images]) and there is no generator, or it is to show
    the discriminator on the dataset's images and there is no
    discriminator.  In particular, with [print_multiple_generators] an
    empty generator population is no error. *)
Theorem save_images_raises_when (self : NeuralNetworkTrainer) (batch_size : Z)
    (input_var : InputBatch) (iteration : Z) (loader : Loader)
    (path_fake : string) (path_real : option string) (w : World) :
  fst (save_images self batch_size input_var iteration loader path_fake path_real w)
  = Raise IndexError
  <-> lacks_generator self loader \/ lacks_discriminator self loader.
Proof.
  split; [|apply save_images_raises].
  intros Hraise. destruct (save_images_needs self loader) as [Hlacks | [Hgen Hdis]];
    [exact Hlacks|].
  destruct (save_images_run self batch_size input_var iteration loader
              path_fake path_real w Hgen Hdis) as (fake & images & Hrun & _).
  rewrite Hrun in Hraise. discriminate Hraise.
Qed.

Lemma save_images_raises_when_witness :
  fst (save_images demo_trainer_empty 128 demo_input 0 demo_loader
                   "out/fake_images-1.jpg" (Some "out/real_images.jpg") demo_world)
  = Raise IndexError.
Proof.
  apply save_images_raises_when. left. split; reflexivity.
Defined.

(** The run of [save_images], with what it saves spelled out. *)
Lemma save_images_content (self : NeuralNetworkTrainer) (batch_size : Z)
    (input_var : InputBatch) (iteration : Z) (loader : Loader)
    (path_fake : string) (path_real : option string) (w : World) :
  (multiple_generators self loader = false ->
   individuals (population_gen self) <> []) ->
  (has_save_images (dataset loader) = true ->
   logging_get (print_discriminator (settings (cc self))) = true ->
   individuals (population_dis self) <> []) ->
  exists fake images,
    save_images self batch_size input_var iteration loader path_fake path_real w
    = (Return tt,
       set_files (<[path_fake := fake]>
                    (real_images_saved iteration path_real
                                       (real_file loader input_var) (files w)))
                 (set_nets (switched (nets_of (generators_run self loader)) (nets w)) w)) /\
    file_images fake = Some images /\
    tensors_of images
    = outputs (latent self batch_size input_var loader) (nets w)
              (nets_of (generators_run self loader)) /\
    (has_save_images (dataset loader) = true ->
     fake = DatasetImages images (discriminator_shown self)) /\
    (has_save_images (dataset loader) = false ->
     exists t, images = One t /\
               fake = LoaderImages t (train_data_shape (dataset loader))).
Proof.
  intros Hgen Hdis.
  unfold save_images, generators_run, multiple_generators, real_file, latent,
    discriminator_shown in *.
  destruct (has_save_images (dataset loader)) eqn:Hds; cbn [andb] in *.
  - erewrite bind_return by (apply save_real_run; reflexivity).
    set (z := if String.eqb _ _ then _ else _).
    set (w1 := set_files _ w).
    assert (forall go w2,
               (let* discr :=
                  (if logging_get (print_discriminator (settings (cc self)))
                   then let* individual := index (individuals (population_dis self)) 0 in
                        ret (Some (genome individual))
                   else ret None) in
                dataset_save_images go path_fake discr) w2
               = (Return tt,
                  set_files
                    (<[path_fake :=
                         DatasetImages go
                           (if logging_get (print_discriminator (settings (cc self)))
                            then option_map genome
                                   (individuals (population_dis self) !! 0%nat)
                            else None)]> (files w2)) w2))
      as Hdiscr.
    { destruct (logging_get (print_discriminator (settings (cc self)))); [|reflexivity].
      destruct (individuals (population_dis self)) as [|d0 ds] eqn:E; [|reflexivity].
      now destruct (Hdis eq_refl eq_refl). }
    destruct (logging_get (print_multiple_generators (settings (cc self)))).
    + eexists _, _. split; [|split; [|split; [|split]]].
      * erewrite bind_return.
        2:{ erewrite bind_return; [reflexivity|].
            apply generate_each_run, first_indices. lia. }
        rewrite Hdiscr. rewrite take_min_length. reflexivity.
      * reflexivity.
      * reflexivity.
      * reflexivity.
      * discriminate.
    + destruct (individuals (population_gen self)) as [|g0 gs] eqn:E.
      { now destruct (Hgen eq_refl). }
      eexists _, _. split; [|split; [|split; [|split]]].
      * erewrite bind_return.
        2:{ unfold index. cbn [lookup list_lookup].
            erewrite bind_return by reflexivity. rewrite eval_call_train. reflexivity. }
        rewrite Hdiscr. reflexivity.
      * reflexivity.
      * reflexivity.
      * reflexivity.
      * discriminate.
  - erewrite bind_return by (apply save_real_run; reflexivity).
    destruct (individuals (population_gen self)) as [|g0 gs] eqn:E.
    { now destruct (Hgen eq_refl). }
    eexists _, _. split; [|split; [|split; [|split]]].
    + unfold index. cbn [lookup list_lookup].
      erewrite bind_return by reflexivity.
      unfold bind, net_eval, net_train, net_call, set_training, get_net, bind, ret,
        dataloader_save_images, write_file.
      cbn [nets set_nets set_files files]. rewrite switch_same. reflexivity.
    + reflexivity.
    + reflexivity.
    + discriminate.
    + intros _. eexists. split; reflexivity.
Qed.

Lemma save_images_returns (self : NeuralNetworkTrainer) (batch_size : Z)
    (input_var : InputBatch) (iteration : Z) (loader : Loader)
    (path_fake : string) (path_real : option string) (w w' : World) :
  save_images self batch_size input_var iteration loader path_fake path_real w
  = (Return tt, w') ->
  (multiple_generators self loader = false ->
   individuals (population_gen self) <> []) /\
  (has_save_images (dataset loader) = true ->
   logging_get (print_discriminator (settings (cc self))) = true ->
   individuals (population_dis self) <> []).
Proof.
  intros Hrun. destruct (save_images_needs self loader) as [Hlacks | Hok]; [|exact Hok].
  apply (save_images_raises self batch_size input_var iteration loader
           path_fake path_real w) in Hlacks.
  rewrite Hrun in Hlacks. discriminate Hlacks.
Qed.

Lemma real_images_saved_other (iteration : Z) (path_real : option string)
    (f : file) (fs : gmap string file) (p : string) :
  (iteration = 0 -> path_real <> Some p) ->
  real_images_saved iteration path_real f fs !! p = fs !! p.
Proof.
  intros Hp. unfold real_images_saved.
  destruct (iteration =? 0)%Z eqn:Hi; [|reflexivity].
  apply Z.eqb_eq in Hi. destruct path_real as [q|]; [|reflexivity].
  cbn. destruct (negb (q =? "")%string); [|reflexivity].
  apply lookup_insert_ne. intros ->. now apply (Hp Hi).
Qed.

(** X9. A complete call to [save_images] writes the generated images to
    [path_fake], one tensor per generator it runs, and, on iteration 0 and
    only then, the real images (the batch [input_var]) to [path_real];
    every other file is as before, and so are the log and the clock.  After
    iteration 0 the file of real images is never written again. *)
Theorem save_images_files (self : NeuralNetworkTrainer) (batch_size : Z)
    (input_var : InputBatch) (iteration : Z) (loader : Loader)
    (path_fake : string) (path_real : option string) (w w' : World) :
  save_images self batch_size input_var iteration loader path_fake path_real w
  = (Return tt, w') ->
  log w' = log w /\ clock w' = clock w /\
  (exists fake images,
      files w' !! path_fake = Some fake /\ file_images fake = Some images /\
      tensors_of images
      = map (fun individual =>
               Forward (weights (nets w (net (genome individual)))) false
                       (latent self batch_size input_var loader))
            (generators_run self loader)) /\
  (forall p, iteration = 0 -> path_real = Some p -> p <> "" -> p <> path_fake ->
             files w' !! p
             = Some (if has_save_images (dataset loader)
                     then DatasetImages (One (Input input_var)) None
                     else LoaderImages (Input input_var)
                                       (train_data_shape (dataset loader)))) /\
  (forall p, p <> path_fake -> (iteration = 0 -> path_real <> Some p) ->
             files w' !! p = files w !! p).
Proof.
  intros Hrun. destruct (save_images_returns _ _ _ _ _ _ _ _ _ Hrun) as [Hgen Hdis].
  destruct (save_images_content self batch_size input_var iteration loader
              path_fake path_real w Hgen Hdis)
    as (fake & images & Hrun' & Himages & Htensors & _).
  rewrite Hrun in Hrun'. injection Hrun' as ->. cbn [files log clock set_files set_nets].
  split; [reflexivity|]. split; [reflexivity|]. split; [|split].
  - exists fake, images. split; [apply lookup_insert_eq|]. split; [exact Himages|].
    rewrite Htensors, outputs_map. unfold nets_of. now rewrite map_map.
  - intros p -> -> Hp Hfake. rewrite lookup_insert_ne by congruence.
    unfold real_images_saved, truthy_path, real_file. cbn [Z.eqb andb].
    apply String.eqb_neq in Hp. rewrite Hp. cbn [negb]. apply lookup_insert_eq.
  - intros p Hp Hreal. rewrite lookup_insert_ne by congruence.
    now apply real_images_saved_other.
Qed.

Lemma save_images_files_witness :
  let w' := snd (save_images demo_trainer 128 demo_input 0 demo_loader
                             "out/fake_images-1.jpg" (Some "out/real_images.jpg")
                             demo_world) in
  log w' = log demo_world /\ clock w' = clock demo_world /\
  (exists fake images,
      files w' !! "out/fake_images-1.jpg" = Some fake /\
      file_images fake = Some images /\
      tensors_of images
      = map (fun individual =>
               Forward (weights (nets demo_world (net (genome individual)))) false
                       (latent demo_trainer 128 demo_input demo_loader))
            (generators_run demo_trainer demo_loader)) /\
  (forall p, 0 = 0 -> Some "out/real_images.jpg" = Some p -> p <> "" ->
             p <> "out/fake_images-1.jpg" ->
             files w' !! p
             = Some (if has_save_images (dataset demo_loader)
                     then DatasetImages (One (Input demo_input)) None
                     else LoaderImages (Input demo_input)
                                       (train_data_shape (dataset demo_loader)))) /\
  (forall p, p <> "out/fake_images-1.jpg" ->
             (0 = 0 -> Some "out/real_images.jpg" <> Some p) ->
             files w' !! p = files demo_world !! p).
Proof.
  apply (save_images_files demo_trainer 128 demo_input 0 demo_loader
           "out/fake_images-1.jpg" (Some "out/real_images.jpg") demo_world).
  reflexivity.
Defined.

(** X10. What a complete call to [save_images] saves as generated images:
    one tensor per generator it runs, in the order of the population, each
    the output of that generator in evaluation mode, with the weights it had
    at the call, on one and the same batch of [batch_size] noise vectors.
    The dataset's [save_images] is handed the genome of the first
    discriminator when [print_discriminator] is set and nothing otherwise;
    the dataloader's gets the shape of the training data. *)
Theorem save_images_generated (self : NeuralNetworkTrainer) (batch_size : Z)
    (input_var : InputBatch) (iteration : Z) (loader : Loader)
    (path_fake : string) (path_real : option string) (w w' : World) :
  save_images self batch_size input_var iteration loader path_fake path_real w
  = (Return tt, w') ->
  let z := latent self batch_size input_var loader in
  exists fake images,
    files w' !! path_fake = Some fake /\
    file_images fake = Some images /\
    tensors_of images
    = map (fun individual => Forward (weights (nets w (net (genome individual)))) false z)
          (generators_run self loader) /\
    batch z = batch_size /\
    (has_save_images (dataset loader) = true ->
     fake = DatasetImages images (discriminator_shown self)) /\
    (has_save_images (dataset loader) = false ->
     exists t, images = One t /\
               fake = LoaderImages t (train_data_shape (dataset loader))).
Proof.
  intros Hrun z. destruct (save_images_returns _ _ _ _ _ _ _ _ _ Hrun) as [Hgen Hdis].
  destruct (save_images_content self batch_size input_var iteration loader
              path_fake path_real w Hgen Hdis)
    as (fake & images & Hrun' & Himages & Htensors & Hdataset & Hloader).
  rewrite Hrun in Hrun'. injection Hrun' as ->. cbn [files set_files set_nets].
  exists fake, images. split; [apply lookup_insert_eq|]. split; [exact Himages|].
  split; [|split; [|split; assumption]].
  - rewrite Htensors, outputs_map. unfold nets_of. now rewrite map_map.
  - unfold z, latent. apply noise_batch.
Qed.

Lemma save_images_generated_witness :
  let w' := snd (save_images demo_trainer_multiple 32 demo_input 1 demo_dataset_loader
                             "out/fake_images-2.jpg" None demo_world) in
  let z := latent demo_trainer_multiple 32 demo_input demo_dataset_loader in
  exists fake images,
    files w' !! "out/fake_images-2.jpg" = Some fake /\
    file_images fake = Some images /\
    tensors_of images
    = map (fun individual =>
             Forward (weights (nets demo_world (net (genome individual)))) false z)
          (generators_run demo_trainer_multiple demo_dataset_loader) /\
    batch z = 32 /\
    (has_save_images (dataset demo_dataset_loader) = true ->
     fake = DatasetImages images (discriminator_shown demo_trainer_multiple)) /\
    (has_save_images (dataset demo_dataset_loader) = false ->
     exists t, images = One t /\
               fake = LoaderImages t (train_data_shape (dataset demo_dataset_loader))).
Proof.
  apply (save_images_generated demo_trainer_multiple 32 demo_input 1 demo_dataset_loader
           "out/fake_images-2.jpg" None demo_world).
  reflexivity.
Defined.

(* ===================================================================== *)
(** ** More about log_results *)
(* ===================================================================== *)

Lemma log_results_raises (self : NeuralNetworkTrainer) (batch_size iteration : Z)
    (input_var : InputBatch) (loader : Loader) (kwargs : list (string * atom))
    (w : World) :
  individuals (population_gen self) = [] \/ individuals (population_dis self) = [] ->
  log_results self batch_size iteration input_var loader kwargs w
  = (Raise IndexError, w).
Proof.
  unfold log_results, index.
  destruct (individuals (population_gen self)) as [|g0 gs]; cbn [lookup list_lookup].
  - intros _. erewrite bind_raise; reflexivity.
  - intros [Hg | Hd]; [discriminate Hg|]. rewrite Hd. cbn [lookup list_lookup].
    erewrite bind_return by reflexivity. erewrite bind_raise; reflexivity.
Qed.

Lemma log_results_first (self : NeuralNetworkTrainer) :
  (individuals (population_gen self) = [] \/ individuals (population_dis self) = []) \/
  (exists generator0 discriminator0,
      individuals (population_gen self) !! 0%nat = Some generator0 /\
      individuals (population_dis self) !! 0%nat = Some discriminator0).
Proof.
  destruct (individuals (population_gen self)) as [|g0 gs]; [now left; left|].
  destruct (individuals (population_dis self)) as [|d0 ds]; [now left; right|].
  right. now exists g0, d0.
Qed.

(** X11. With an empty generator population, or an empty discriminator
    population, [log_results] raises IndexError while it puts the log line
    together, before anything is logged or saved: the log, the files and
    the networks are as before the call. *)
Theorem log_results_empty_population (self : NeuralNetworkTrainer)
    (batch_size iteration : Z) (input_var : InputBatch) (loader : Loader)
    (kwargs : list (string * atom)) (w : World) :
  individuals (population_gen self) = [] \/ individuals (population_dis self) = [] ->
  exists w',
    log_results self batch_size iteration input_var loader kwargs w
    = (Raise IndexError, w') /\
    log w' = log w /\ files w' = files w /\ nets w' = nets w /\ w' = w.
Proof.
  intros Hempty. exists w. split; [now apply log_results_raises|]. repeat split.
Qed.

Lemma log_results_empty_population_witness :
  exists w',
    log_results demo_trainer_discriminator 200 5 demo_input demo_loader
                [("score", AFloat (Float "0.5"))] demo_world
    = (Raise IndexError, w') /\
    log w' = log demo_world /\ files w' = files demo_world /\
    nets w' = nets demo_world /\ w' = demo_world.
Proof.
  apply log_results_empty_population. right. reflexivity.
Defined.

Lemma string_app_assoc (a b c : string) : (a +:+ b) +:+ c = a +:+ (b +:+ c).
Proof.
  induction a as [|ch a IH]; [reflexivity|].
  rewrite !string_app_cons. now rewrite IH.
Qed.

Lemma string_app_nil_r (a : string) : a +:+ "" = a.
Proof.
  induction a as [|ch a IH]; [reflexivity|].
  rewrite string_app_cons. now rewrite IH.
Qed.

Lemma string_app_nonempty (a b : string) : b <> "" -> (a +:+ b =? "")%string = false.
Proof.
  intros Hb. apply String.eqb_neq. intros E.
  apply (f_equal String.length) in E. rewrite string_app_length in E.
  destruct b; [congruence | cbn in E; lia].
Qed.

Lemma join_cons_nonempty (sep p : string) (rest : list string) :
  p <> "" -> join sep (p :: rest) <> "".
Proof.
  intros Hp. destruct rest as [|q rest]; [exact Hp|].
  cbn [join]. intros E. apply (f_equal String.length) in E.
  rewrite string_app_length in E. destruct p; [congruence | cbn in E; lia].
Qed.

Lemma kwargs_suffix_cons (kv : string * atom) (rest : list (string * atom)) :
  kwargs_suffix (kv :: rest) = kwarg_text kv +:+ kwargs_suffix rest.
Proof.
  unfold kwargs_suffix, kwarg_text. cbn [map].
  set (f := fun kv : string * atom => fst kv +:+ "=" +:+ py_str (snd kv)).
  assert (forall kv', f kv' <> "") as Hf.
  { intros kv' E. unfold f in E.
    pose proof (string_app_nonempty (fst kv') ("=" +:+ py_str (snd kv'))) as H.
    rewrite E in H. now specialize (H ltac:(discriminate)). }
  change (fst kv +:+ "=" +:+ py_str (snd kv)) with (f kv).
  rewrite (proj2 (String.eqb_neq _ _) (join_cons_nonempty ", " (f kv) _ (Hf kv))).
  destruct rest as [|kv' rest].
  - cbn [map join]. cbn. now rewrite string_app_nil_r.
  - cbn [map]. rewrite (proj2 (String.eqb_neq _ _) (join_cons_nonempty ", " (f kv') _ (Hf kv'))).
    change (join ", " (f kv :: f kv' :: map f rest))
      with (f kv +:+ ", " +:+ join ", " (f kv' :: map f rest)).
    now rewrite !string_app_assoc.
Qed.

Lemma kwargs_suffix_pieces (kwargs : list (string * atom)) :
  kwargs_suffix kwargs
  = fold_right (fun kv rest => kwarg_text kv +:+ rest) "" kwargs.
Proof.
  induction kwargs as [|kv rest IH]; [reflexivity|].
  rewrite kwargs_suffix_cons. cbn [fold_right]. now rewrite IH.
Qed.

(** X12. The line [log_results] logs ends with one piece ', key=value' per
    keyword argument, in the order they were given (nothing when there is
    none): values are printed as [str] prints them. *)
Theorem log_results_kwargs (self : NeuralNetworkTrainer)
    (batch_size iteration : Z) (input_var : InputBatch) (loader : Loader)
    (kwargs : list (string * atom)) (w : World)
    (generator0 discriminator0 : Individual) :
  individuals (population_gen self) !! 0%nat = Some generator0 ->
  individuals (population_dis self) !! 0%nat = Some discriminator0 ->
  log (snd (log_results self batch_size iteration input_var loader kwargs w))
  = log w ++
      [log_line iteration (fitness generator0) (fitness discriminator0)
                (fold_right (fun kv rest => kwarg_text kv +:+ rest) "" kwargs)].
Proof.
  intros Hg Hd.
  destruct (log_results_run self batch_size iteration input_var loader kwargs w _ _ Hg Hd)
    as (w1 & fake & images & Hrun & _ & _ & Hlog & _).
  rewrite Hrun. cbn [snd]. rewrite Hlog. now rewrite kwargs_suffix_pieces.
Qed.

Lemma log_results_kwargs_witness :
  log (snd (log_results demo_trainer 200 0 demo_input demo_loader
                        [("lr", AFloat (Float "0.0002")); ("epoch", AInt 3)] demo_world))
  = log demo_world ++
      [log_line 0 (fitness demo_local) (fitness demo_discriminator)
                (fold_right (fun kv rest => kwarg_text kv +:+ rest) ""
                            [("lr", AFloat (Float "0.0002")); ("epoch", AInt 3)])].
Proof. apply log_results_kwargs; reflexivity. Defined.

Lemma log_results_returns (self : NeuralNetworkTrainer) (batch_size iteration : Z)
    (input_var : InputBatch) (loader : Loader) (kwargs : list (string * atom))
    (w w' : World) (paths : string * string) :
  log_results self batch_size iteration input_var loader kwargs w = (Return paths, w') ->
  exists fake,
    paths = (path_join (output_dir (cc self))
                       ("real_images." +:+ image_format (settings (cc self))),
             path_join (output_dir (cc self))
                       ("fake_images-" +:+ py_str (AInt (iteration + 1)) +:+ "." +:+
                        image_format (settings (cc self)))) /\
    files w' = <[snd paths := fake]>
                 (real_images_saved iteration (Some (fst paths))
                                    (real_file loader input_var) (files w)) /\
    (forall l, weights (nets w' l) = weights (nets w l)) /\
    log w' = log w ++ [log_line iteration
                         (from_option fitness (Float "") (individuals (population_gen self) !! 0%nat))
                         (from_option fitness (Float "") (individuals (population_dis self) !! 0%nat))
                         (kwargs_suffix kwargs)] /\
    clock w' = clock w.
Proof.
  intros Hrun. destruct (log_results_first self) as [Hempty | (g0 & d0 & Hg & Hd)].
  - rewrite log_results_raises in Hrun by exact Hempty. discriminate Hrun.
  - destruct (log_results_run self batch_size iteration input_var loader kwargs w _ _ Hg Hd)
      as (w1 & fake & images & Hrun1 & Hfiles & Hnets & Hlog & Hclock & _).
    rewrite Hrun in Hrun1. injection Hrun1 as -> <-.
    exists fake. split; [reflexivity|]. split; [exact Hfiles|].
    split; [|split; [|exact Hclock]].
    + intros l. rewrite Hnets. apply switched_weights.
    + rewrite Hlog, Hg, Hd. reflexivity.
Qed.

Lemma fake_path_inj (od image_format : string) (n n' : Z) :
  path_join od ("fake_images-" +:+ py_str (AInt n) +:+ "." +:+ image_format)
  = path_join od ("fake_images-" +:+ py_str (AInt n') +:+ "." +:+ image_format) ->
  n = n'.
Proof.
  intros E. apply path_join_inj in E; [|reflexivity|reflexivity].
  apply (inj (String.app _)) in E.
  rewrite <- !string_app_assoc in E. do 2 apply string_app_inv_tail in E.
  cbn [py_str] in E. now apply (inj pretty) in E.
Qed.

(** X13. Every iteration has its own file of generated images, and all
    share the file of real images: two calls that return, on the same
    trainer, return the same [path_real], and the same [path_fake] only for
    the same iteration; [path_real] and [path_fake] are never the same
    file. *)
Theorem log_results_paths (self : NeuralNetworkTrainer)
    (batch_size batch_size' i i' : Z) (input_var input_var' : InputBatch)
    (loader loader' : Loader) (kwargs kwargs' : list (string * atom))
    (w1 w1' w2 w2' : World) (path_real path_fake path_real' path_fake' : string) :
  log_results self batch_size i input_var loader kwargs w1
  = (Return (path_real, path_fake), w1') ->
  log_results self batch_size' i' input_var' loader' kwargs' w2
  = (Return (path_real', path_fake'), w2') ->
  path_real = path_real' /\ path_real <> path_fake /\ (path_fake = path_fake' -> i = i').
Proof.
  intros H1 H2.
  apply log_results_returns in H1 as (_ & [= -> ->] & _).
  apply log_results_returns in H2 as (_ & [= -> ->] & _).
  split; [reflexivity|]. split; [apply real_path_not_fake|].
  intros E. apply fake_path_inj in E. lia.
Qed.

Lemma log_results_paths_witness :
  "out/real_images.jpg" = "out/real_images.jpg" /\
  "out/real_images.jpg" <> "out/fake_images-1.jpg" /\
  ("out/fake_images-1.jpg" = "out/fake_images-8.jpg" -> 0 = 7).
Proof.
  apply (log_results_paths demo_trainer 200 64 0 7 demo_input demo_input
           demo_loader demo_dataset_loader [] [("k", ANone)]
           demo_world
           (snd (log_results demo_trainer 200 0 demo_input demo_loader [] demo_world))
           demo_world
           (snd (log_results demo_trainer 64 7 demo_input demo_dataset_loader
                             [("k", ANone)] demo_world)));
    reflexivity.
Defined.

Lemma image_path_not_checkpoint (self : NeuralNetworkTrainer) (name : string) (c : Z) :
  (exists rest, name = "real_images." +:+ rest \/ name = "fake_images-" +:+ rest) ->
  path_join (output_dir (cc self)) name <> checkpoint_path self c.
Proof.
  intros [rest [-> | ->]] E;
    (apply path_join_inj in E; [|reflexivity|reflexivity]); discriminate E.
Qed.

Lemma image_path_not_weights (self : NeuralNetworkTrainer) (name prefix : string)
    (c j : Z) :
  (exists rest, name = "real_images." +:+ rest \/ name = "fake_images-" +:+ rest) ->
  prefix = GENERATOR_PREFIX \/ prefix = DISCRIMINATOR_PREFIX ->
  path_join (output_dir (cc self)) name <> weights_path self prefix c j.
Proof.
  intros [rest [-> | ->]] [-> | ->] E;
    (apply path_join_inj in E; [|reflexivity|reflexivity]); discriminate E.
Qed.

(** X14. The images never land on a checkpoint: a call to [log_results]
    that returns leaves every checkpoint file and every weight file of the
    output directory, of any cell, as it was. *)
Theorem log_results_keeps_checkpoints (self : NeuralNetworkTrainer)
    (batch_size iteration : Z) (input_var : InputBatch) (loader : Loader)
    (kwargs : list (string * atom)) (w w' : World) (paths : string * string) :
  log_results self batch_size iteration input_var loader kwargs w = (Return paths, w') ->
  forall c,
    files w' !! checkpoint_path self c = files w !! checkpoint_path self c /\
    forall j,
      files w' !! weights_path self GENERATOR_PREFIX c j
      = files w !! weights_path self GENERATOR_PREFIX c j /\
      files w' !! weights_path self DISCRIMINATOR_PREFIX c j
      = files w !! weights_path self DISCRIMINATOR_PREFIX c j.
Proof.
  intros Hrun c. apply log_results_returns in Hrun as (fake & -> & Hfiles & _).
  cbn [fst snd] in Hfiles. rewrite Hfiles.
  assert (forall p,
             (forall name,
                 (exists rest, name = "real_images." +:+ rest \/
                               name = "fake_images-" +:+ rest) ->
                 path_join (output_dir (cc self)) name <> p) ->
             <[path_join (output_dir (cc self))
                 ("fake_images-" +:+ py_str (AInt (iteration + 1)) +:+ "." +:+
                  image_format (settings (cc self))) := fake]>
               (real_images_saved iteration
                  (Some (path_join (output_dir (cc self))
                           ("real_images." +:+ image_format (settings (cc self)))))
                  (real_file loader input_var) (files w)) !! p
             = files w !! p) as Hother.
  { intros p Hp. rewrite lookup_insert_ne by (apply Hp; eauto).
    apply real_images_saved_other. intros _ [= E]. revert E. apply Hp. eauto. }
  split; [|intros j; split]; apply Hother; intros name Hname.
  - now apply image_path_not_checkpoint.
  - apply image_path_not_weights; auto.
  - apply image_path_not_weights; auto.
Qed.

Lemma log_results_keeps_checkpoints_witness :
  let w' := snd (log_results demo_trainer 200 0 demo_input demo_loader [] demo_world) in
  files w' !! checkpoint_path demo_trainer 4
  = files demo_world !! checkpoint_path demo_trainer 4 /\
  forall j,
    files w' !! weights_path demo_trainer GENERATOR_PREFIX 4 j
    = files demo_world !! weights_path demo_trainer GENERATOR_PREFIX 4 j /\
    files w' !! weights_path demo_trainer DISCRIMINATOR_PREFIX 4 j
    = files demo_world !! weights_path demo_trainer DISCRIMINATOR_PREFIX 4 j.
Proof.
  apply (log_results_keeps_checkpoints demo_trainer 200 0 demo_input demo_loader []
           demo_world _ ("out/real_images.jpg", "out/fake_images-1.jpg")).
  reflexivity.
Defined.

(** X15. Unless 'sample_count' is configured, a call saves at most 128
    generated images per generator (the comment in the code), hence at
    most 640 in all, five generators being the most that are run. *)
Theorem log_results_image_bound (self : NeuralNetworkTrainer)
    (batch_size iteration : Z) (input_var : InputBatch) (loader : Loader)
    (kwargs : list (string * atom)) (w w' : World) (paths : string * string) :
  log_results self batch_size iteration input_var loader kwargs w = (Return paths, w') ->
  sample_count (settings (cc self)) = None \/
  sample_count (settings (cc self)) = Some 0 ->
  exists fake images,
    files w' !! snd paths = Some fake /\
    file_images fake = Some images /\
    image_count images <= 640 /\
    (multiple_generators self loader = false -> image_count images <= 128).
Proof.
  intros Hrun Hsc.
  destruct (log_results_first self) as [Hempty | (g0 & d0 & Hg & Hd)].
  { rewrite log_results_raises in Hrun by exact Hempty. discriminate Hrun. }
  destruct (log_results_run self batch_size iteration input_var loader kwargs w _ _ Hg Hd)
    as (w1 & fake & images & Hrun1 & Hfiles & _ & _ & _ & Himages & Hcount).
  rewrite Hrun in Hrun1. injection Hrun1 as -> <-.
  exists fake, images. split; [rewrite Hfiles; apply lookup_insert_eq|].
  split; [exact Himages|].
  assert (images_batch_size (sample_count (settings (cc self))) batch_size <= 128) as Hb.
  { destruct Hsc as [-> | ->]; cbn; lia. }
  rewrite Hcount. unfold generators_run. split.
  - assert (length (if multiple_generators self loader
                    then take 5 (individuals (population_gen self))
                    else take 1 (individuals (population_gen self))) <= 5)%nat as Hlen
        by (destruct (multiple_generators self loader); rewrite length_take; lia).
    nia.
  - intros ->. rewrite length_take.
    destruct (individuals (population_gen self)); [discriminate Hg|].
    cbn [length]. rewrite Nat.min_l by lia. lia.
Qed.

Lemma log_results_image_bound_witness :
  exists fake images,
    files (snd (log_results demo_trainer_multiple 1000 2 demo_input demo_dataset_loader
                            [] demo_world)) !! "out/fake_images-3.jpg" = Some fake /\
    file_images fake = Some images /\
    image_count images <= 640 /\
    (multiple_generators demo_trainer_multiple demo_dataset_loader = false ->
     image_count images <= 128).
Proof.
  apply (log_results_image_bound demo_trainer_multiple 1000 2 demo_input
           demo_dataset_loader [] demo_world _
           ("out/real_images.jpg", "out/fake_images-3.jpg")).
  - reflexivity.
  - left. reflexivity.
Defined.

Lemma weight_files_ext (self : NeuralNetworkTrainer) (prefix : string) (c : Z)
    (ns ns' : loc -> Net) (individuals : list Individual) (j : Z)
    (fs : gmap string file) :
  (forall l, weights (ns l) = weights (ns' l)) ->
  weight_files self prefix c ns individuals j fs
  = weight_files self prefix c ns' individuals j fs.
Proof.
  intros Hw. revert j fs. induction individuals as [|a rest IH]; intros j fs; [reflexivity|].
  cbn [weight_files]. destruct (is_local a); [|apply IH]. rewrite Hw. apply IH.
Qed.

(** X16. Logging results and saving a checkpoint do not get in each
    other's way: a checkpoint saved after a call to [log_results] has the
    same outcome and writes every file exactly as it would have without
    that call, and it leaves the two image files as [log_results] wrote
    them. *)
Theorem save_checkpoint_after_log_results (self : NeuralNetworkTrainer)
    (batch_size iteration : Z) (input_var : InputBatch) (loader : Loader)
    (kwargs : list (string * atom))
    (generators discriminators : list Individual)
    (cell_number : Z) (grid_position : Z * Z) (grid_size : Z)
    (w w1 : World) (paths : string * string) :
  log_results self batch_size iteration input_var loader kwargs w = (Return paths, w1) ->
  let after := save_checkpoint self generators discriminators cell_number
                               grid_position grid_size w1 in
  let alone := save_checkpoint self generators discriminators cell_number
                               grid_position grid_size w in
  fst after = fst alone /\
  (forall p, p <> fst paths -> p <> snd paths ->
             files (snd after) !! p = files (snd alone) !! p) /\
  files (snd after) !! fst paths = files w1 !! fst paths /\
  files (snd after) !! snd paths = files w1 !! snd paths.
Proof.
  intros Hrun after alone. subst after alone.
  apply log_results_returns in Hrun as (fake & -> & Hfiles & Hweights & _ & Hclock).
  cbn [fst snd] in *.
  split; [|split; [|split]].
  - destruct generators; [now rewrite !save_checkpoint_empty
                         | now rewrite !save_checkpoint_run].
  - intros p Hreal Hfake.
    assert (files w1 !! p = files w !! p) as Hp.
    { rewrite Hfiles, lookup_insert_ne by congruence.
      apply real_images_saved_other. congruence. }
    assert (files_after_populations self generators discriminators cell_number w1 !! p
            = files_after_populations self generators discriminators cell_number w !! p)
      as Hafter.
    { unfold files_after_populations.
      rewrite !(weight_files_ext self _ cell_number (nets w1) (nets w)) by exact Hweights.
      destruct (weight_files_cases self DISCRIMINATOR_PREFIX cell_number (nets w)
                  discriminators 0 p) as [[sd Hd] | Hd]; [now rewrite !Hd|].
      rewrite !Hd.
      destruct (weight_files_cases self GENERATOR_PREFIX cell_number (nets w)
                  generators 0 p) as [[sd Hg] | Hg]; [now rewrite !Hg|].
      now rewrite !Hg. }
    destruct generators as [|g0 gens].
    + rewrite !save_checkpoint_empty. exact Hafter.
    + rewrite !save_checkpoint_run. cbn [snd files set_files]. rewrite Hclock.
      destruct (decide (checkpoint_path self cell_number = p)) as [<- | Hne].
      * now rewrite !lookup_insert_eq.
      * now rewrite !(lookup_insert_ne _ _ _ _ Hne).
  - rewrite save_checkpoint_files_other
      by (apply image_path_not_checkpoint; eauto).
    unfold files_after_populations.
    rewrite !weight_files_other; [reflexivity | |];
      intros j' _ E; revert E; apply image_path_not_weights; eauto.
  - rewrite save_checkpoint_files_other
      by (apply image_path_not_checkpoint; eauto).
    unfold files_after_populations.
    rewrite !weight_files_other; [reflexivity | |];
      intros j' _ E; revert E; apply image_path_not_weights; eauto.
Qed.

Lemma save_checkpoint_after_log_results_witness :
  let w1 := snd (log_results demo_trainer 200 0 demo_input demo_loader [] demo_world) in
  let after := save_checkpoint demo_trainer [demo_local; demo_remote]
                               [demo_discriminator] 4 (1, 2) 9 w1 in
  let alone := save_checkpoint demo_trainer [demo_local; demo_remote]
                               [demo_discriminator] 4 (1, 2) 9 demo_world in
  fst after = fst alone /\
  (forall p, p <> "out/real_images.jpg" -> p <> "out/fake_images-1.jpg" ->
             files (snd after) !! p = files (snd alone) !! p) /\
  files (snd after) !! "out/real_images.jpg" = files w1 !! "out/real_images.jpg" /\
  files (snd after) !! "out/fake_images-1.jpg" = files w1 !! "out/fake_images-1.jpg".
Proof.
  apply (save_checkpoint_after_log_results demo_trainer 200 0 demo_input demo_loader []
           [demo_local; demo_remote] [demo_discriminator] 4 (1, 2) 9 demo_world _
           ("out/real_images.jpg", "out/fake_images-1.jpg")).
  reflexivity.
Defined.

(** X17. When [save_images] raises, the generated images have not been
    written, but what came before the failing line stays: the real images
    (on iteration 0) are saved, and if it is the discriminator that is
    missing, the generators have been run and are in training mode.
    Nothing is logged. *)
Theorem save_images_failure (self : NeuralNetworkTrainer) (batch_size : Z)
    (input_var : InputBatch) (iteration : Z) (loader : Loader)
    (path_fake : string) (path_real : option string) (w : World) :
  lacks_generator self loader \/ lacks_discriminator self loader ->
  exists w',
    save_images self batch_size input_var iteration loader path_fake path_real w
    = (Raise IndexError, w') /\
    files w' = real_images_saved iteration path_real (real_file loader input_var) (files w) /\
    log w' = log w /\ clock w' = clock w /\
    (lacks_generator self loader -> nets w' = nets w) /\
    (~ lacks_generator self loader ->
     nets w' = switched (nets_of (generators_run self loader)) (nets w)).
Proof.
  unfold lacks_generator, lacks_discriminator, generators_run, multiple_generators,
    save_images, real_file.
  destruct (has_save_images (dataset loader)) eqn:Hds; cbn [andb].
  - intros Hlacks.
    erewrite bind_return by (apply save_real_run; reflexivity).
    match goal with
    | |- context [bind _ _ ?w1] =>
        match goal with
        | |- context [generate_each self ?z _ _] =>
            pose proof (generated_output_cases self z w1) as Hcases
        end
    end.
    cbv zeta in Hcases.
    destruct (logging_get (print_multiple_generators (settings (cc self)))) eqn:Hm.
    + destruct Hlacks as [[Hno _] | (_ & Hpd & Ed)]; [discriminate Hno|].
      destruct Hcases as [[go Hgo] | Hraise].
      * erewrite bind_return by exact Hgo. rewrite Hpd, Ed.
        unfold index. cbn [lookup list_lookup].
        eexists. split.
        { erewrite bind_raise; [reflexivity|]. erewrite bind_raise; reflexivity. }
        cbn [files log clock nets set_files set_nets].
        do 3 (split; [reflexivity|]).
        split; [intros [Hno _]; discriminate Hno | reflexivity].
      * exfalso. erewrite bind_return in Hraise; [discriminate Hraise|].
        apply generate_each_run, first_indices. lia.
    + destruct (individuals (population_gen self)) as [|g0 gs] eqn:Eg.
      * eexists. split.
        { unfold index. cbn [lookup list_lookup].
          erewrite bind_raise; [reflexivity|]. erewrite bind_raise; reflexivity. }
        cbn [files log clock nets set_files set_nets].
        do 3 (split; [reflexivity|]).
        split; [reflexivity | intros Hno; now destruct Hno].
      * destruct Hlacks as [[_ Hno] | (_ & Hpd & Ed)]; [discriminate Hno|].
        destruct Hcases as [[go Hgo] | Hraise].
        -- erewrite bind_return by exact Hgo. rewrite Hpd, Ed.
           unfold index. cbn [lookup list_lookup].
           eexists. split.
           { erewrite bind_raise; [reflexivity|]. erewrite bind_raise; reflexivity. }
           cbn [files log clock nets set_files set_nets].
           do 3 (split; [reflexivity|]).
           split; [intros [_ Hno]; discriminate Hno | reflexivity].
        -- exfalso. unfold index in Hraise. cbn [lookup list_lookup] in Hraise.
           erewrite bind_return in Hraise by reflexivity.
           rewrite eval_call_train in Hraise. discriminate Hraise.
  - intros [[_ Eg] | (Hno & _)]; [|discriminate Hno].
    erewrite bind_return by (apply save_real_run; reflexivity).
    rewrite Eg. unfold index. cbn [lookup list_lookup].
    eexists. split; [erewrite bind_raise; reflexivity|].
    cbn [files log clock nets set_files set_nets].
    do 3 (split; [reflexivity|]).
    split; [reflexivity | intros Hno; now destruct Hno].
Qed.

Lemma save_images_failure_witness :
  exists w',
    save_images demo_trainer_discriminator 16 demo_input 0 demo_dataset_loader
                "out/fake_images-1.png" (Some "out/real_images.png") demo_world
    = (Raise IndexError, w') /\
    files w' = real_images_saved 0 (Some "out/real_images.png")
                 (real_file demo_dataset_loader demo_input) (files demo_world) /\
    log w' = log demo_world /\ clock w' = clock demo_world /\
    (lacks_generator demo_trainer_discriminator demo_dataset_loader ->
     nets w' = nets demo_world) /\
    (~ lacks_generator demo_trainer_discriminator demo_dataset_loader ->
     nets w' = switched (nets_of (generators_run demo_trainer_discriminator
                                                 demo_dataset_loader))
                        (nets demo_world)).
Proof.
  apply save_images_failure. right. repeat split.
Defined.
